(** * send-openputer-kit: the balance monitor tool and its drivers

    A shallow embedding of [src/tools/BalanceMonitorTool.ts] (and of the
    earlier revision of the same class kept in [src/unnamed/part_000]) and
    of the two drivers of [src/index.ts], [runAutonomousMode] and the
    transfer branch of [runChatMode].

    JavaScript numbers are IEEE 754 binary64 values: they are modelled by
    Rocq's primitive floats, so [<], [+] and [/] are the operations the
    program runs.  Strings are byte strings (the UTF-8 text of the source's
    literals). *)

From Stdlib Require Import ZArith QArith Qabs Qround String Ascii List Bool Lia.
From Stdlib Require Import DecimalString.
From Stdlib Require Import Floats.
Import ListNotations.

Set Warnings "-inexact-float".

Open Scope string_scope.

(** ** ECMAScript built-ins used by the sources *)

Module JS.

(** [s.includes(sub)]. *)
Fixpoint includes (s sub : string) : bool :=
  String.prefix sub s ||
  match s with
  | EmptyString => false
  | String _ s' => includes s' sub
  end.

(** [s.repeat(n)] for a one-character [s]. *)
Fixpoint repeat_char (c : ascii) (n : nat) : string :=
  match n with
  | O => EmptyString
  | S n' => String c (repeat_char c n')
  end.

(** Truthiness of a string: [input && ...] takes the right operand exactly
    when [input] is not the empty string. *)
Definition truthy (s : string) : bool :=
  match s with
  | EmptyString => false
  | String _ _ => true
  end.

(** Decimal digits of a natural number, ["0"] for zero. *)
Definition digits (n : Z) : string :=
  NilZero.string_of_uint (N.to_uint (Z.to_N n)).

(** The exact value of a finite binary64 number [m * 2^e]. *)
Definition Qpow2 (e : Z) : Q := Qpower (2 # 1) e.
Definition Qpow10 (e : Z) : Q := Qpower (10 # 1) e.
Definition Qvalue (m : positive) (e : Z) : Q := (Zpos m # 1) * Qpow2 e.

(** Step 10 of Number.prototype.toFixed: the integer [n] for which
    [n / 10^f - x] is as close to zero as possible, the larger one when
    there are two. *)
Definition nearest_scaled (x : Q) (f : Z) : Z :=
  Qfloor (x * Qpow10 f + (1 # 2)).

(** The digit string of toFixed for the integer [n] and [f] fraction
    digits: left-padded with zeros to [f + 1] characters, with the point
    before the last [f]. *)
Definition fixed_digits (n : Z) (f : nat) : string :=
  let m := digits n in
  match f with
  | O => m
  | _ =>
    let k := String.length m in
    let m' := if Nat.leb k f then repeat_char "0" (f + 1 - k) ++ m else m in
    let k' := String.length m' in
    String.substring 0 (k' - f) m' ++ "." ++ String.substring (k' - f) f m'
  end.

(** *** Number::toString (radix 10) *)

(** The rounding interval of the binary64 number [m * 2^e]: every real
    strictly between the bounds rounds to it, and the bounds themselves do
    when [m] is even. *)
Definition round_interval (m : positive) (e : Z) : Q * Q :=
  let lo :=
    if andb (Pos.eqb m 4503599627370496) (Z.ltb (-1074) e)
    then (Zpos (4 * m - 1) # 1) * Qpow2 (e - 2)
    else (Zpos (2 * m - 1) # 1) * Qpow2 (e - 1) in
  (lo, (Zpos (2 * m + 1) # 1) * Qpow2 (e - 1)).

Definition rounds_to (m : positive) (e : Z) (d : Q) : bool :=
  let '(lo, hi) := round_interval m e in
  if Z.even (Zpos m) then Qle_bool lo d && Qle_bool d hi
  else negb (Qle_bool d lo) && negb (Qle_bool hi d).

(** The [n] with [10^(n-1) <= x < 10^n], searched upwards from [n]. *)
Fixpoint decimal_exponent (fuel : nat) (x : Q) (n : Z) : Z :=
  match fuel with
  | O => n
  | S fuel' =>
    if Qle_bool (Qpow10 n) x then decimal_exponent fuel' x (n + 1) else n
  end.

Definition Qdist (a b : Q) : Q := Qabs (a - b).

(** The candidate with [k] digits: of the two next to [x], one that
    rounds to the number, the closer one when both do, the even one when
    they are as close. *)
Definition candidate (m : positive) (e : Z) (n0 : Z) (k : Z) : option (Z * Z) :=
  let x := Qvalue m e in
  let scale := Qpow10 (n0 - k) in
  let lo := Qfloor (x / scale) in
  let hi := (lo + 1)%Z in
  let ok s := rounds_to m e ((s # 1) * scale) in
  let pick s := if Z.eqb s (10 ^ k) then (10 ^ (k - 1), n0 + 1)%Z else (s, n0) in
  match ok lo, ok hi with
  | true, true =>
    let dlo := Qdist ((lo # 1) * scale) x in
    let dhi := Qdist ((hi # 1) * scale) x in
    if Qle_bool dlo dhi && negb (Qle_bool dhi dlo) then Some (pick lo)
    else if Qle_bool dhi dlo && negb (Qle_bool dlo dhi) then Some (pick hi)
    else if Z.even lo then Some (pick lo) else Some (pick hi)
  | true, false => Some (pick lo)
  | false, true => Some (pick hi)
  | false, false => None
  end.

(** The least [k] from [k] on with a candidate, together with it. *)
Fixpoint shortest (fuel : nat) (m : positive) (e : Z) (n0 : Z) (k : Z)
  : Z * Z * Z :=
  match fuel with
  | O => (k, 0, n0)%Z
  | S fuel' =>
    match candidate m e n0 k with
    | Some (s, n) => (k, s, n)
    | None => shortest fuel' m e n0 (k + 1)
    end
  end.

(** The layout of Number::toString for the digits [s] ([k] of them) and
    the exponent [n]. *)
Definition layout (k s n : Z) : string :=
  let ds := digits s in
  if (Z.leb k n && Z.leb n 21)%bool then
    ds ++ repeat_char "0" (Z.to_nat (n - k))
  else if (Z.ltb 0 n && Z.leb n 21)%bool then
    String.substring 0 (Z.to_nat n) ds ++ "." ++
    String.substring (Z.to_nat n) (Z.to_nat (k - n)) ds
  else if (Z.ltb (-6) n && Z.leb n 0)%bool then
    "0." ++ repeat_char "0" (Z.to_nat (- n)) ++ ds
  else
    let ex := (if Z.ltb (n - 1) 0 then "-" else "+") ++ digits (Z.abs (n - 1)) in
    if Z.eqb k 1 then ds ++ "e" ++ ex
    else String.substring 0 1 ds ++ "." ++
         String.substring 1 (Z.to_nat (k - 1)) ds ++ "e" ++ ex.

(** [String(x)] and template interpolation of a number. *)
Definition numberToString (x : float) : string :=
  match Prim2SF x with
  | S754_nan => "NaN"
  | S754_zero _ => "0"
  | S754_infinity s => if s then "-Infinity" else "Infinity"
  | S754_finite sg m e =>
    let n0 := decimal_exponent 700 (Qvalue m e) (-330) in
    let '(k, s, n) := shortest 17 m e n0 1 in
    (if sg then "-" else "") ++ layout k s n
  end.

(** [x.toFixed(f)]. *)
Definition toFixed (x : float) (f : nat) : string :=
  match Prim2SF x with
  | S754_finite sg m e =>
    if PrimFloat.leb 1e21 (PrimFloat.abs x) then numberToString x
    else (if sg then "-" else "") ++
         fixed_digits (nearest_scaled (Qvalue m e) (Z.of_nat f)) f
  | S754_zero _ => fixed_digits 0 f
  | _ => numberToString x
  end.

End JS.

(** A line feed and a double quote, for the message templates. *)
Definition nl : string := String (ascii_of_nat 10) EmptyString.
Definition dq : string := String (ascii_of_nat 34) EmptyString.

(** ** Thrown values *)

(** What a [catch] clause can receive.  The sources only ask whether the
    value is an [Error] and then read its [message], or else take
    [String(error)]. *)
Inductive thrown : Type :=
| ErrorObj (message : string)
| NonError (asString : string).

(** [error instanceof Error ? error.message : String(error)]. *)
Definition errorText (error : thrown) : string :=
  match error with
  | ErrorObj message => message
  | NonError asString => asString
  end.

(** ** The imported packages *)

(** What the sources take from [@solana/web3.js] and from the string
    library of the host without defining it: the [PublicKey] class with its
    throwing constructor, and [String.prototype.toLowerCase]. *)
Class Host : Type := {
  PublicKey : Type;
  PublicKey_new : string -> thrown + PublicKey;
  PublicKey_toString : PublicKey -> string;
  toLowerCase : string -> string
}.

(** [LAMPORTS_PER_SOL] of [@solana/web3.js]. *)
Definition LAMPORTS_PER_SOL : float := 1000000000%float.

(** One chunk of the stream of [agent.stream], as the drivers read it:
    the content of the first message under the key [agent] or [tools]. *)
Inductive Chunk : Type :=
| AgentChunk (content : string)
| ToolsChunk (content : string)
| OtherChunk.

(** ** Effects *)

Section Effects.

Context {host : Host}.

(** The calls the program makes on its collaborators, in program order. *)
Inductive Event : Type :=
| GetBalance (account : PublicKey)
| Transfer (to : PublicKey) (amount : float)
| ConfirmTransaction (signature : string) (commitment : string)
| AgentStream (thought : string)
| ConsoleLog (line : string)
| ConsoleError (label : string) (line : string)
| SetTimeout (ms : float).

(** The collaborators: the RPC connection, the agent kit's transfer and
    the language-model agent.  Each call answers or throws, and moves the
    world on.

    [agent_stream] stands for [agent.stream(...)] and the iteration of the
    stream it returns: the chunks it yields and the throw that may end it.
    The agent is built with the tools of [initializeAgent] (lines 107-122)
    and runs them while it streams.  What they do happens inside this
    call: it shows in the world the call leaves behind and in the chunks,
    and not in the events of a run, which are the calls the drivers and
    the balance monitor make in their own code. *)
Class Environment (W : Type) : Type := {
  getBalance : PublicKey -> W -> (thrown + float) * W;
  transfer : PublicKey -> float -> W -> (thrown + string) * W;
  confirmTransaction : string -> string -> W -> (thrown + unit) * W;
  agent_stream : string -> W -> (thrown + (list Chunk * option thrown)) * W
}.

Context {W : Type} {env : Environment W}.

(** A computation: from a world to a value or a thrown value, the world
    after it, and the events it produced. *)
Definition M (A : Type) : Type := W -> (thrown + A) * W * list Event.

Definition ret {A} (a : A) : M A := fun w => (inr a, w, []).

Definition throw {A} (e : thrown) : M A := fun w => (inl e, w, []).

Definition bind {A B} (m : M A) (k : A -> M B) : M B :=
  fun w =>
    match m w with
    | (inl e, w1, t1) => (inl e, w1, t1)
    | (inr a, w1, t1) =>
      let '(r, w2, t2) := k a w1 in (r, w2, (t1 ++ t2)%list)
    end.

(** [try { m } catch (error) { h error }]. *)
Definition try_catch {A} (m : M A) (h : thrown -> M A) : M A :=
  fun w =>
    match m w with
    | (inl e, w1, t1) =>
      let '(r, w2, t2) := h e w1 in (r, w2, (t1 ++ t2)%list)
    | (inr a, w1, t1) => (inr a, w1, t1)
    end.

Definition emit (ev : Event) : M unit := fun w => (inr tt, w, [ev]).

Definition perform {A} (ev : Event) (call : W -> (thrown + A) * W) : M A :=
  fun w => let '(r, w1) := call w in (r, w1, [ev]).

Definition fmap {A B} (f : A -> B) (m : M A) : M B :=
  bind m (fun a => ret (f a)).

(** A computation that completes normally from every world. *)
Definition returns {A} (m : M A) : Prop :=
  forall w, exists a w1 t1, m w = (inr a, w1, t1).

(** A computation whose last event, when it completes, is [ev]. *)
Definition ends_with {A} (m : M A) (ev : Event) : Prop :=
  forall w a w1 t, m w = (inr a, w1, t) -> exists t0, t = (t0 ++ [ev])%list.

(** An expression that yields a value or throws. *)
Definition lift {A} (r : thrown + A) : M A :=
  match r with
  | inl e => throw e
  | inr a => ret a
  end.

End Effects.

Arguments M {host} W A.
Arguments returns {host} W {A} m.
Arguments ends_with {host} W {A} m ev.

Declare Scope js_scope.
Delimit Scope js_scope with js.
Notation "x <- m ;; k" := (bind m (fun x => k))
  (at level 61, m at next level, right associativity) : js_scope.
Notation "m ;;; k" := (bind m (fun _ => k))
  (at level 61, right associativity) : js_scope.

(** The calls, each recorded as it is made. *)
Section Calls.

Context {host : Host} {W : Type} {env : Environment W}.

(** [await this.connection.getBalance(account)]. *)
Definition connection_getBalance (account : PublicKey) : M W float :=
  perform (GetBalance account) (getBalance account).

(** [await this.solanaAgent.transfer(to, amount)]. *)
Definition solanaAgent_transfer (to : PublicKey) (amount : float) : M W string :=
  perform (Transfer to amount) (transfer to amount).

(** [await this.connection.confirmTransaction(signature, commitment)]. *)
Definition connection_confirmTransaction (signature commitment : string)
  : M W unit :=
  perform (ConfirmTransaction signature commitment)
          (confirmTransaction signature commitment).

Definition console_log (line : string) : M W unit := emit (ConsoleLog line).

Definition console_error (label line : string) : M W unit :=
  emit (ConsoleError label line).

(** [await new Promise((resolve) => setTimeout(resolve, ms))]. *)
Definition sleep (ms : float) : M W unit := emit (SetTimeout ms).

End Calls.

Open Scope js_scope.

(** ** The outcome kinds of the specification *)

Inductive CycleOutcome : Type :=
| Healthy
| ToppedUp
| InsufficientFunds
| TransferFailed
| ConfirmationUnknown
| InvalidInput
| TransientError.

(** The transfers a run submitted, the calls of any kind it made on the
    connection and the agent kit, and its waits. *)
Section Traces.

Context {host : Host}.

Definition is_transfer (ev : Event) : bool :=
  match ev with
  | Transfer _ _ => true
  | _ => false
  end.

Definition is_ledger_call (ev : Event) : bool :=
  match ev with
  | GetBalance _ | Transfer _ _ | ConfirmTransaction _ _ => true
  | _ => false
  end.

Definition is_wait (ev : Event) : bool :=
  match ev with
  | SetTimeout _ => true
  | _ => false
  end.

Definition transfers (t : list Event) : list Event := filter is_transfer t.

Definition waits (t : list Event) : list Event := filter is_wait t.

Definition ledger_calls (t : list Event) : list Event :=
  filter is_ledger_call t.

End Traces.

(** ** src/tools/BalanceMonitorTool.ts *)

Module BalanceMonitorTool.

Section Tool.

Context {host : Host} {W : Type} {env : Environment W}.

(** The fields of the class that [_call] reads.  [wallet_publicKey] is
    [this.solanaAgent.wallet.publicKey]. *)
Record t : Type := {
  minBalanceSol : float;
  topUpAmountSol : float;
  defaultWallet : PublicKey;
  wallet_publicKey : PublicKey
}.

(** The constructor (lines 15-28): both amounts default to 0.005, and the
    default wallet address goes through [new PublicKey]. *)
Definition new (defaultWalletAddress : string) (wallet : PublicKey)
  (minBalanceSol topUpAmountSol : option float) : thrown + t :=
  match PublicKey_new defaultWalletAddress with
  | inl e => inl e
  | inr pk =>
    inr {| minBalanceSol := match minBalanceSol with
                            | Some x => x
                            | None => 0.005%float
                            end;
           topUpAmountSol := match topUpAmountSol with
                             | Some x => x
                             | None => 0.005%float
                             end;
           defaultWallet := pk;
           wallet_publicKey := wallet |}
  end.

(** The local [balanceMessage]: the line written at line 42, and the line
    appended at line 58 once the source wallet has been found solvent. *)
Record BalanceMessage : Type := {
  current : float;
  mine : option float
}.

(** [balanceMessage] as line 42 sets it and as line 58 extends it. *)
Definition firstMessage (balanceInSol : float) : BalanceMessage :=
  {| current := balanceInSol; mine := None |}.

Definition secondMessage (balanceInSol sourceBalanceInSol : float)
  : BalanceMessage :=
  {| current := balanceInSol; mine := Some sourceBalanceInSol |}.

Definition render_balanceMessage (b : BalanceMessage) : string :=
  "Current balance: " ++ JS.toFixed (current b) 4 ++ " SOL" ++
  match mine b with
  | None => ""
  | Some sourceBalanceInSol =>
    nl ++ "My wallet balance: " ++ JS.toFixed sourceBalanceInSol 4 ++ " SOL"
  end.

(** One constructor for each [return] of [_call], with the values its
    template interpolates. *)
Inductive Reply : Type :=
| NeedFunds (b : BalanceMessage) (requiredAmount : float)
            (sourceWallet : PublicKey)                          (* line 55 *)
| TransferSuccessful (b : BalanceMessage) (newBalanceInSol : float)
                                                                (* line 73 *)
| NotEnoughForFees (b : BalanceMessage) (total : float)         (* line 78 *)
| FundsNotArrived (b : BalanceMessage)                          (* line 81 *)
| TransferFailedWith (b : BalanceMessage) (message : string)    (* line 83 *)
| TransferFailedPlain (b : BalanceMessage)                      (* line 85 *)
| BalanceOnly (b : BalanceMessage)                              (* line 89 *)
| InvalidWalletAddress                                          (* line 92 *)
| ErrorCheckingBalance (text : string).                         (* line 94 *)

(** The template of each [return]. *)
Definition render (r : Reply) : string :=
  match r with
  | NeedFunds b requiredAmount sourceWallet =>
    render_balanceMessage b ++ nl ++ nl ++
    "I need some SOL to keep operating! 🙏" ++ nl ++
    "Please send at least " ++ JS.toFixed requiredAmount 6 ++
    " SOL to my address:" ++ nl ++ PublicKey_toString sourceWallet ++
    nl ++ nl ++
    "This amount includes transaction fees. Once you've sent the SOL, let me know by saying "
    ++ dq ++ "check balance" ++ dq ++
    " and I'll verify the funds and proceed with the top-up."
  | TransferSuccessful b newBalanceInSol =>
    render_balanceMessage b ++ nl ++ "Transfer successful! ✅" ++ nl ++
    "New balance: " ++ JS.toFixed newBalanceInSol 4 ++ " SOL"
  | NotEnoughForFees b total =>
    render_balanceMessage b ++ nl ++ nl ++
    "Oops! I don't have quite enough SOL for the transfer and fees. Please send a bit more SOL ("
    ++ JS.numberToString total ++
    " SOL total) to cover the transaction fees."
  | FundsNotArrived b =>
    render_balanceMessage b ++ nl ++ nl ++
    "Hmm, it seems the funds haven't arrived yet. Are you sure you sent the SOL? Please verify and let me know by saying "
    ++ dq ++ "check balance" ++ dq ++ " again."
  | TransferFailedWith b message =>
    render_balanceMessage b ++ nl ++ "Transfer failed: " ++ message ++
    ". Please try again in a moment."
  | TransferFailedPlain b =>
    render_balanceMessage b ++ nl ++
    "Transfer failed. Please try again in a moment."
  | BalanceOnly b => render_balanceMessage b
  | InvalidWalletAddress =>
    "Error: Invalid wallet address provided. Please provide a valid Solana wallet address."
  | ErrorCheckingBalance text => "Error checking balance: " ++ text
  end.

(** Line 52: the amount to transfer and the fee. *)
Definition requiredAmount (this : t) : float :=
  (topUpAmountSol this + 0.000005)%float.

(** The inner [catch] block, lines 74-86. *)
Definition transfer_catch (this : t) (b : BalanceMessage) (error : thrown)
  : Reply :=
  match error with
  | ErrorObj message =>
    let errorMsg := toLowerCase message in
    if JS.includes errorMsg "insufficient lamports" || JS.includes errorMsg "0x1"
    then NotEnoughForFees b (topUpAmountSol this + 0.000005)%float
    else if JS.includes errorMsg "attempt to debit"
    then FundsNotArrived b
    else TransferFailedWith b message
  | NonError _ => TransferFailedPlain b
  end.

(** The outer [catch] block, lines 90-95. *)
Definition call_catch (error : thrown) : Reply :=
  match error with
  | ErrorObj message =>
    if JS.includes message "Invalid public key"
    then InvalidWalletAddress
    else ErrorCheckingBalance message
  | NonError asString => ErrorCheckingBalance asString
  end.

(** Lines 34-36: the default wallet for the empty string and for
    ["check"], [new PublicKey(input)] for anything else. *)
Definition targetWallet_of (this : t) (input : string) : thrown + PublicKey :=
  if JS.truthy input && negb (String.eqb input "check")
  then PublicKey_new input
  else inr (defaultWallet this).

(** Lines 60-73, run once [balanceMessage] has its second line: transfer,
    wait for the confirmation, read the balance again. *)
Definition transfer_and_confirm (this : t) (targetWallet : PublicKey)
  (b : BalanceMessage) : M W Reply :=
  signature <- solanaAgent_transfer targetWallet (topUpAmountSol this) ;;
  connection_confirmTransaction signature "confirmed" ;;;
  newBalance <- connection_getBalance targetWallet ;;
  let newBalanceInSol := (newBalance / LAMPORTS_PER_SOL)%float in
  ret (TransferSuccessful b newBalanceInSol).

(** Lines 45-86.  [balanceMessage] is assigned once inside the [try], at
    line 58, and the [catch] reads the text current at the throw: the
    handler has the first text up to line 58 and the second from there. *)
Definition top_up (this : t) (targetWallet : PublicKey) (balanceInSol : float)
  : M W Reply :=
  let balanceMessage := firstMessage balanceInSol in
  try_catch
    (let sourceWallet := wallet_publicKey this in
     sourceBalance <- connection_getBalance sourceWallet ;;
     let sourceBalanceInSol := (sourceBalance / LAMPORTS_PER_SOL)%float in
     let requiredAmount := requiredAmount this in
     if (sourceBalanceInSol <? requiredAmount)%float
     then ret (NeedFunds balanceMessage requiredAmount sourceWallet)
     else
       let balanceMessage' := secondMessage balanceInSol sourceBalanceInSol in
       try_catch
         (transfer_and_confirm this targetWallet balanceMessage')
         (fun error => ret (transfer_catch this balanceMessage' error)))
    (fun error => ret (transfer_catch this balanceMessage error)).

(** [_call], lines 30-96, up to the rendering of the returned text. *)
Definition _call_reply (this : t) (input : string) : M W Reply :=
  try_catch
    (targetWallet <- lift (targetWallet_of this input) ;;
     balance <- connection_getBalance targetWallet ;;
     let balanceInSol := (balance / LAMPORTS_PER_SOL)%float in
     if (balanceInSol <? minBalanceSol this)%float
     then top_up this targetWallet balanceInSol
     else ret (BalanceOnly (firstMessage balanceInSol)))
    (fun error => ret (call_catch error)).

(** The paths through [_call], as a relation between the input, the
    answers of the environment, the reply, the world left behind and the
    calls made.  One constructor for each way the body can end. *)
Inductive Run (this : t) (input : string) (w : W)
  : Reply -> W -> list Event -> Prop :=
| RunParseThrows e :
    targetWallet_of this input = inl e ->
    Run this input w (call_catch e) w []
| RunQueryThrows targetWallet e w1 :
    targetWallet_of this input = inr targetWallet ->
    getBalance targetWallet w = (inl e, w1) ->
    Run this input w (call_catch e) w1 [GetBalance targetWallet]
| RunHealthy targetWallet balance w1 :
    targetWallet_of this input = inr targetWallet ->
    getBalance targetWallet w = (inr balance, w1) ->
    (balance / LAMPORTS_PER_SOL <? minBalanceSol this)%float = false ->
    Run this input w
      (BalanceOnly (firstMessage (balance / LAMPORTS_PER_SOL)%float)) w1
      [GetBalance targetWallet]
| RunSourceThrows targetWallet balance w1 e w2 :
    targetWallet_of this input = inr targetWallet ->
    getBalance targetWallet w = (inr balance, w1) ->
    (balance / LAMPORTS_PER_SOL <? minBalanceSol this)%float = true ->
    getBalance (wallet_publicKey this) w1 = (inl e, w2) ->
    Run this input w
      (transfer_catch this (firstMessage (balance / LAMPORTS_PER_SOL)%float) e)
      w2
      [GetBalance targetWallet; GetBalance (wallet_publicKey this)]
| RunNeedFunds targetWallet balance w1 sourceBalance w2 :
    targetWallet_of this input = inr targetWallet ->
    getBalance targetWallet w = (inr balance, w1) ->
    (balance / LAMPORTS_PER_SOL <? minBalanceSol this)%float = true ->
    getBalance (wallet_publicKey this) w1 = (inr sourceBalance, w2) ->
    (sourceBalance / LAMPORTS_PER_SOL <? requiredAmount this)%float = true ->
    Run this input w
      (NeedFunds (firstMessage (balance / LAMPORTS_PER_SOL)%float)
                 (requiredAmount this) (wallet_publicKey this))
      w2
      [GetBalance targetWallet; GetBalance (wallet_publicKey this)]
| RunTransferThrows targetWallet balance w1 sourceBalance w2 e w3 :
    targetWallet_of this input = inr targetWallet ->
    getBalance targetWallet w = (inr balance, w1) ->
    (balance / LAMPORTS_PER_SOL <? minBalanceSol this)%float = true ->
    getBalance (wallet_publicKey this) w1 = (inr sourceBalance, w2) ->
    (sourceBalance / LAMPORTS_PER_SOL <? requiredAmount this)%float = false ->
    transfer targetWallet (topUpAmountSol this) w2 = (inl e, w3) ->
    Run this input w
      (transfer_catch this
         (secondMessage (balance / LAMPORTS_PER_SOL)%float
                        (sourceBalance / LAMPORTS_PER_SOL)%float) e)
      w3
      [GetBalance targetWallet; GetBalance (wallet_publicKey this);
       Transfer targetWallet (topUpAmountSol this)]
| RunConfirmThrows targetWallet balance w1 sourceBalance w2 signature w3 e w4 :
    targetWallet_of this input = inr targetWallet ->
    getBalance targetWallet w = (inr balance, w1) ->
    (balance / LAMPORTS_PER_SOL <? minBalanceSol this)%float = true ->
    getBalance (wallet_publicKey this) w1 = (inr sourceBalance, w2) ->
    (sourceBalance / LAMPORTS_PER_SOL <? requiredAmount this)%float = false ->
    transfer targetWallet (topUpAmountSol this) w2 = (inr signature, w3) ->
    confirmTransaction signature "confirmed" w3 = (inl e, w4) ->
    Run this input w
      (transfer_catch this
         (secondMessage (balance / LAMPORTS_PER_SOL)%float
                        (sourceBalance / LAMPORTS_PER_SOL)%float) e)
      w4
      [GetBalance targetWallet; GetBalance (wallet_publicKey this);
       Transfer targetWallet (topUpAmountSol this);
       ConfirmTransaction signature "confirmed"]
| RunRequeryThrows targetWallet balance w1 sourceBalance w2 signature w3 w4
                   e w5 :
    targetWallet_of this input = inr targetWallet ->
    getBalance targetWallet w = (inr balance, w1) ->
    (balance / LAMPORTS_PER_SOL <? minBalanceSol this)%float = true ->
    getBalance (wallet_publicKey this) w1 = (inr sourceBalance, w2) ->
    (sourceBalance / LAMPORTS_PER_SOL <? requiredAmount this)%float = false ->
    transfer targetWallet (topUpAmountSol this) w2 = (inr signature, w3) ->
    confirmTransaction signature "confirmed" w3 = (inr tt, w4) ->
    getBalance targetWallet w4 = (inl e, w5) ->
    Run this input w
      (transfer_catch this
         (secondMessage (balance / LAMPORTS_PER_SOL)%float
                        (sourceBalance / LAMPORTS_PER_SOL)%float) e)
      w5
      [GetBalance targetWallet; GetBalance (wallet_publicKey this);
       Transfer targetWallet (topUpAmountSol this);
       ConfirmTransaction signature "confirmed";
       GetBalance targetWallet]
| RunToppedUp targetWallet balance w1 sourceBalance w2 signature w3 w4
              newBalance w5 :
    targetWallet_of this input = inr targetWallet ->
    getBalance targetWallet w = (inr balance, w1) ->
    (balance / LAMPORTS_PER_SOL <? minBalanceSol this)%float = true ->
    getBalance (wallet_publicKey this) w1 = (inr sourceBalance, w2) ->
    (sourceBalance / LAMPORTS_PER_SOL <? requiredAmount this)%float = false ->
    transfer targetWallet (topUpAmountSol this) w2 = (inr signature, w3) ->
    confirmTransaction signature "confirmed" w3 = (inr tt, w4) ->
    getBalance targetWallet w4 = (inr newBalance, w5) ->
    Run this input w
      (TransferSuccessful
         (secondMessage (balance / LAMPORTS_PER_SOL)%float
                        (sourceBalance / LAMPORTS_PER_SOL)%float)
         (newBalance / LAMPORTS_PER_SOL)%float)
      w5
      [GetBalance targetWallet; GetBalance (wallet_publicKey this);
       Transfer targetWallet (topUpAmountSol this);
       ConfirmTransaction signature "confirmed";
       GetBalance targetWallet].


(** [async _call(input: string): Promise<string>]. *)
Definition _call (this : t) (input : string) : M W string :=
  fmap render (_call_reply this input).

(** The outcome kind of the specification that each reply reports.  The
    reply of line 94 reports a failed query, which the specification files
    under no kind of its own; it is the error the call meets in transit. *)
Definition classify (r : Reply) : CycleOutcome :=
  match r with
  | NeedFunds _ _ _ => InsufficientFunds
  | TransferSuccessful _ _ => ToppedUp
  | NotEnoughForFees _ _ => InsufficientFunds
  | FundsNotArrived _ => TransferFailed
  | TransferFailedWith _ _ => TransferFailed
  | TransferFailedPlain _ => TransferFailed
  | BalanceOnly _ => Healthy
  | InvalidWalletAddress => InvalidInput
  | ErrorCheckingBalance _ => TransientError
  end.

End Tool.

End BalanceMonitorTool.

(** ** src/unnamed/part_000: the earlier revision of the class *)

Module Part000.

Section Tool.

Context {host : Host} {W : Type} {env : Environment W}.

Record t : Type := {
  minBalanceSol : float;
  topUpAmountSol : float;
  defaultWallet : PublicKey
}.

(** The constructor (lines 15-28), with the defaults 0.1 and 0.2. *)
Definition new (defaultWalletAddress : string)
  (minBalanceSol topUpAmountSol : option float) : thrown + t :=
  match PublicKey_new defaultWalletAddress with
  | inl e => inl e
  | inr pk =>
    inr {| minBalanceSol := match minBalanceSol with
                            | Some x => x
                            | None => 0.1%float
                            end;
           topUpAmountSol := match topUpAmountSol with
                             | Some x => x
                             | None => 0.2%float
                             end;
           defaultWallet := pk |}
  end.

Inductive Reply : Type :=
| ToppedUpWith (targetWallet : PublicKey) (balanceInSol : float)
               (topUpAmountSol : float)                         (* line 48 *)
| FailedToTopUp (targetWallet : PublicKey) (text : string)      (* line 50 *)
| NoTopUpNeeded (targetWallet : PublicKey) (balanceInSol : float)
                                                                (* line 54 *)
| InvalidWalletAddress                                          (* line 57 *)
| ErrorCheckingBalance (text : string).                         (* line 59 *)

Definition render (r : Reply) : string :=
  match r with
  | ToppedUpWith targetWallet balanceInSol topUpAmountSol =>
    "Wallet " ++ PublicKey_toString targetWallet ++ " balance was low (" ++
    JS.toFixed balanceInSol 4 ++ " SOL). Successfully topped up with " ++
    JS.numberToString topUpAmountSol ++ " SOL."
  | FailedToTopUp targetWallet text =>
    "Failed to top up wallet " ++ PublicKey_toString targetWallet ++
    ". Error: " ++ text
  | NoTopUpNeeded targetWallet balanceInSol =>
    "Wallet " ++ PublicKey_toString targetWallet ++ " balance is " ++
    JS.toFixed balanceInSol 4 ++ " SOL. No top-up needed."
  | InvalidWalletAddress =>
    "Error: Invalid wallet address provided. Please provide a valid Solana wallet address."
  | ErrorCheckingBalance text => "Error checking balance: " ++ text
  end.

Definition call_catch (error : thrown) : Reply :=
  match error with
  | ErrorObj message =>
    if JS.includes message "Invalid public key"
    then InvalidWalletAddress
    else ErrorCheckingBalance message
  | NonError asString => ErrorCheckingBalance asString
  end.

Definition targetWallet_of (this : t) (input : string) : thrown + PublicKey :=
  if JS.truthy input && negb (String.eqb input "check")
  then PublicKey_new input
  else inr (defaultWallet this).

(** [_call], lines 30-61, up to the rendering of the returned text. *)
Definition _call_reply (this : t) (input : string) : M W Reply :=
  try_catch
    (targetWallet <- lift (targetWallet_of this input) ;;
     balance <- connection_getBalance targetWallet ;;
     let balanceInSol := (balance / LAMPORTS_PER_SOL)%float in
     if (balanceInSol <? minBalanceSol this)%float
     then
       try_catch
         (solanaAgent_transfer targetWallet (topUpAmountSol this) ;;;
          ret (ToppedUpWith targetWallet balanceInSol (topUpAmountSol this)))
         (fun error => ret (FailedToTopUp targetWallet (errorText error)))
     else ret (NoTopUpNeeded targetWallet balanceInSol))
    (fun error => ret (call_catch error)).

Definition _call (this : t) (input : string) : M W string :=
  fmap render (_call_reply this input).

Definition classify (r : Reply) : CycleOutcome :=
  match r with
  | ToppedUpWith _ _ _ => ToppedUp
  | FailedToTopUp _ _ => TransferFailed
  | NoTopUpNeeded _ _ => Healthy
  | InvalidWalletAddress => InvalidInput
  | ErrorCheckingBalance _ => TransientError
  end.

End Tool.

End Part000.

(** ** src/index.ts *)

Module Index.

Section Drivers.

Context {host : Host} {W : Type} {env : Environment W}.

(** What the drivers use of a tool: its [name] and its [_call]. *)
Record Tool : Type := {
  name : string;
  call : string -> M W string
}.

(** [tools.find((tool) => tool.name === "balance_monitor")]. *)
Definition find_balance_monitor (tools : list Tool) : option Tool :=
  find (fun tool => String.eqb (name tool) "balance_monitor") tools.

Definition rule50 : string := JS.repeat_char "=" 50.

(** The [for await] loops over the stream: one or two lines per chunk,
    and the throw that may end the iteration. *)
Fixpoint for_await (body : Chunk -> M W unit) (chunks : list Chunk)
  (failure : option thrown) : M W unit :=
  match chunks with
  | [] => match failure with
          | Some e => throw e
          | None => ret tt
          end
  | chunk :: rest => body chunk ;;; for_await body rest failure
  end.

(** Lines 191-199. *)
Definition print_chunk_auto (chunk : Chunk) : M W unit :=
  match chunk with
  | AgentChunk content =>
    console_log (nl ++ "🔄 Agent Response:") ;;; console_log content
  | ToolsChunk content =>
    console_log (nl ++ "🛠️ Tool Execution Result:") ;;; console_log content
  | OtherChunk => ret tt
  end.

Definition thought : string :=
  "Choose and execute ONE of these monitoring tools:" ++ nl ++
  "- Network Status Check (network_info)" ++ nl ++
  "- Market Analysis (check_token_price)" ++ nl ++
  "- Performance Metrics (check_tps)".

(** The two waits of the loop: [interval * 1000] at line 204 and the
    literal [5000] at line 211. *)
Definition cadence_ms (interval : float) : float := (interval * 1000)%float.
Definition recovery_ms : float := 5000%float.

(** The [try] block of one pass of the loop, lines 162-204. *)
Definition cycle_try (tools : list Tool) (interval : float) : M W unit :=
  console_log (nl ++ rule50) ;;;
  console_log "🔍 DIAGNOSTIC CYCLE STARTING" ;;;
  console_log rule50 ;;;
  match find_balance_monitor tools with
  | Some balanceMonitor =>
    console_log (nl ++ "💰 Checking Wallet Health...") ;;;
    balance <- call balanceMonitor "check" ;;
    console_log "📊 Status Report:" ;;;
    console_log balance
  | None => ret tt
  end ;;;
  console_log (nl ++ "🌐 Performing Network Analysis...") ;;;
  console_log (nl ++ "🤔 AI Agent is analyzing situation...") ;;;
  stream <- perform (AgentStream thought) (agent_stream thought) ;;
  for_await print_chunk_auto (fst stream) (snd stream) ;;;
  console_log (nl ++ "⏳ Next health check in " ++ JS.numberToString interval
               ++ " seconds...") ;;;
  console_log (rule50 ++ nl) ;;;
  sleep (cadence_ms interval).

(** The [catch] block, lines 205-214. *)
Definition cycle_catch (error : thrown) : M W unit :=
  console_log (nl ++ "⚠️ ALERT: System Anomaly Detected!") ;;;
  match error with
  | ErrorObj message =>
    console_error "🔧 Self-Healing Protocol Initiated:" message
  | NonError _ => ret tt
  end ;;;
  sleep recovery_ms ;;;
  console_log ("🔄 Attempting recovery..." ++ nl).

(** One pass of [while (true)], lines 161-215. *)
Definition cycle (tools : list Tool) (interval : float) : M W unit :=
  try_catch (cycle_try tools interval) cycle_catch.

(** The first [n] passes of the loop.  The loop has no [break] and no
    [return], its condition is the literal [true]: it is left only by a
    throw that escapes a pass, which ends the run here too. *)
Fixpoint passes (n : nat) (tools : list Tool) (interval : float) : M W unit :=
  match n with
  | O => ret tt
  | S n' => cycle tools interval ;;; passes n' tools interval
  end.

(** The default of the parameter [interval], line 157; [main] passes no
    other value. *)
Definition default_interval : float := 10%float.

(** [runAutonomousMode(agent, config, tools, interval = 10)], observed for
    [n] passes after its two opening lines. *)
Definition runAutonomousMode (n : nat) (tools : list Tool)
  (interval : option float) : M W unit :=
  let interval := match interval with
                  | Some x => x
                  | None => default_interval
                  end in
  console_log (nl ++ "🤖 Initializing Self-Healing AI Agent...") ;;;
  console_log ("🔄 Running continuous monitoring and maintenance cycle" ++ nl) ;;;
  passes n tools interval.

(** Where the loop stands after a run: still in [while (true)], or left
    by a throw that no [catch] took. *)
Inductive LoopState : Type :=
| Running
| Stopped.

Definition loop_state (r : thrown + unit) : LoopState :=
  match r with
  | inr _ => Running
  | inl _ => Stopped
  end.

(** What the [catch] block of a pass does, lines 206-212. *)
Definition recovery (error : thrown) : list Event :=
  [ConsoleLog (nl ++ "⚠️ ALERT: System Anomaly Detected!")] ++
  match error with
  | ErrorObj message =>
    [ConsoleError "🔧 Self-Healing Protocol Initiated:" message]
  | NonError _ => []
  end ++
  [SetTimeout recovery_ms; ConsoleLog ("🔄 Attempting recovery..." ++ nl)].

(** *** [runChatMode], lines 218-295 *)

Inductive Turn : Type :=
| Break
| Continue.

(** Lines 278-285. *)
Definition print_chunk_chat (chunk : Chunk) : M W unit :=
  match chunk with
  | AgentChunk content => console_log content
  | ToolsChunk content => console_log content
  | OtherChunk => ret tt
  end ;;;
  console_log "-------------------".

Definition transferAmount : float := 0.001%float.

(** The argument of the second call of the tool, line 261:
    [`transfer ${transferAmount}`]. *)
Definition transfer_input : string :=
  "transfer " ++ JS.numberToString transferAmount.

(** Lines 251-268: the [try] block of a transfer request and its
    [catch]. *)
Definition transfer_request (balanceMonitor : Tool) : M W unit :=
  try_catch
    (result <- call balanceMonitor "check" ;;
     console_log result ;;;
     if negb (JS.includes result "Agent wallet balance: 0.0000 SOL")
     then
       console_log (nl ++ "Attempting to transfer " ++
                    JS.numberToString transferAmount ++ " SOL...") ;;;
       transferResult <- call balanceMonitor transfer_input ;;
       console_log transferResult
     else
       console_log (nl ++ "Transfer not possible: Agent wallet has no funds to transfer."))
    (fun error => console_error (nl ++ "Transfer failed:") (errorText error)).

(** Lines 273-285. *)
Definition ask_agent (userInput : string) : M W Turn :=
  stream <- perform (AgentStream userInput) (agent_stream userInput) ;;
  for_await print_chunk_chat (fst stream) (snd stream) ;;;
  ret Continue.

(** One pass of the loop of [runChatMode] on the line the user typed,
    lines 231-285.  A throw leaves the loop for the [catch] of line 287,
    which exits the process. *)
Definition chat_turn (tools : list Tool) (userInput : string) : M W Turn :=
  let lower := toLowerCase userInput in
  if String.eqb lower "exit" then ret Break
  else
    let transfer_or_agent :=
      if JS.includes lower "transfer"
      then match find_balance_monitor tools with
           | Some balanceMonitor =>
             transfer_request balanceMonitor ;;; ret Continue
           | None => ask_agent userInput
           end
      else ask_agent userInput in
    if JS.includes lower "balance"
    then match find_balance_monitor tools with
         | Some balanceMonitor =>
           balance <- call balanceMonitor "check" ;;
           console_log balance ;;;
           ret Continue
         | None => transfer_or_agent
         end
    else transfer_or_agent.

(** The tool as [initializeAgent] puts it in [tools], lines 63-67 and
    110. *)
Definition balance_monitor_tool (this : BalanceMonitorTool.t) : Tool :=
  {| name := "balance_monitor"; call := BalanceMonitorTool._call this |}.

End Drivers.

End Index.

(** ** A reference host and a simulated ledger

    The theorems below hold for every host and every environment.  The
    instances of this section give them concrete inputs to run on: the
    constructor of [PublicKey] as [@solana/web3.js] has it for a string
    (the [decode] of [bs58] first, which rejects a character outside the
    alphabet with its own message, then the check that 32 bytes came out),
    and a ledger that keeps balances in lamports and charges the fee of
    5000 lamports for a transfer.  Neither package is among the sources:
    the instances follow their published behaviour and serve the concrete
    runs only. *)

Module Reference.

Definition alphabet : string :=
  "123456789ABCDEFGHJKLMNPQRSTUVWXYZabcdefghijkmnopqrstuvwxyz".

Fixpoint index_of (c : ascii) (s : string) (i : Z) : option Z :=
  match s with
  | EmptyString => None
  | String d s' => if Ascii.eqb c d then Some i else index_of c s' (i + 1)
  end.

(** The value of the digits in base 58, or [None] at a character outside
    the alphabet. *)
Fixpoint bs58_value (s : string) (acc : Z) : option Z :=
  match s with
  | EmptyString => Some acc
  | String c s' =>
    match index_of c alphabet 0 with
    | None => None
    | Some d => bs58_value s' (acc * 58 + d)
    end
  end.

Fixpoint leading_ones (s : string) : nat :=
  match s with
  | String "1" s' => S (leading_ones s')
  | _ => 0
  end.

(** The number of bytes [bs58.decode] returns: one for each leading [1],
    and the bytes of the value of the rest. *)
Definition bs58_decoded_length (s : string) : option nat :=
  match bs58_value s 0 with
  | None => None
  | Some v =>
    Some (leading_ones s +
          (if Z.eqb v 0 then 0 else Z.to_nat (Z.log2 v / 8 + 1)))%nat
  end.

Definition web3_PublicKey_new (value : string) : thrown + string :=
  match bs58_decoded_length value with
  | None => inl (ErrorObj "Non-base58 character")
  | Some n =>
    if Nat.eqb n 32 then inr value
    else inl (ErrorObj "Invalid public key input")
  end.

Definition ascii_toLowerCase (c : ascii) : ascii :=
  let n := nat_of_ascii c in
  if (Nat.leb 65 n && Nat.leb n 90)%bool then ascii_of_nat (n + 32) else c.

Fixpoint string_toLowerCase (s : string) : string :=
  match s with
  | EmptyString => EmptyString
  | String c s' => String (ascii_toLowerCase c) (string_toLowerCase s')
  end.

(** A key is kept as its base-58 text, which is also its [toString]. *)
#[export] Instance web3 : Host := {|
  PublicKey := string;
  PublicKey_new := web3_PublicKey_new;
  PublicKey_toString := fun pk => pk;
  toLowerCase := string_toLowerCase
|}.

(** The simulated ledger. *)
Record Sim : Type := {
  lamports : list (string * float);
  payer : string;
  transfer_fails : option thrown;
  confirm_fails : option thrown;
  stream_answer : thrown + (list Chunk * option thrown)
}.

Fixpoint lamports_of (account : string) (l : list (string * float)) : float :=
  match l with
  | [] => 0%float
  | (a, x) :: l' => if String.eqb a account then x else lamports_of account l'
  end.

Fixpoint credit (account : string) (delta : float) (l : list (string * float))
  : list (string * float) :=
  match l with
  | [] => [(account, delta)]
  | (a, x) :: l' =>
    if String.eqb a account then (a, (x + delta)%float) :: l'
    else (a, x) :: credit account delta l'
  end.

Definition sim_transfer (to : string) (amount : float) (w : Sim)
  : (thrown + string) * Sim :=
  match transfer_fails w with
  | Some e => (inl e, w)
  | None =>
    let moved := (amount * LAMPORTS_PER_SOL)%float in
    (inr "5igNature",
     {| lamports := credit to moved
                      (credit (payer w) (- (moved + 5000))%float (lamports w));
        payer := payer w;
        transfer_fails := transfer_fails w;
        confirm_fails := confirm_fails w;
        stream_answer := stream_answer w |})
  end.

#[export] Instance sim : Environment Sim := {|
  getBalance := fun account w => (inr (lamports_of account (lamports w)), w);
  transfer := sim_transfer;
  confirmTransaction := fun _ _ w =>
    match confirm_fails w with
    | Some e => (inl e, w)
    | None => (inr tt, w)
    end;
  agent_stream := fun _ w => (stream_answer w, w)
|}.

(** Two addresses: the system program's (thirty-two zero bytes) and the
    mint of wrapped SOL that line 85 of [index.ts] names. *)
Definition agent_wallet : string := "11111111111111111111111111111111".
Definition monitored : string := "So11111111111111111111111111111111111111112".

End Reference.

(** ** Scenarios *)

Module Scenario.

Import Reference.

(** The policy of the scenarios of the specification: threshold 0.1,
    top-up 0.2. *)
Definition tool : BalanceMonitorTool.t :=
  {| BalanceMonitorTool.minBalanceSol := 0.1%float;
     BalanceMonitorTool.topUpAmountSol := 0.2%float;
     BalanceMonitorTool.defaultWallet := monitored;
     BalanceMonitorTool.wallet_publicKey := agent_wallet |}.

Definition tool_part_000 : Part000.t :=
  {| Part000.minBalanceSol := 0.1%float;
     Part000.topUpAmountSol := 0.2%float;
     Part000.defaultWallet := monitored |}.

(** A ledger with the two accounts, in lamports. *)
Definition ledger (funding target : float) : Sim :=
  {| lamports := [(agent_wallet, funding); (monitored, target)];
     payer := agent_wallet;
     transfer_fails := None;
     confirm_fails := None;
     stream_answer := inr ([], None) |}.

(** Funding account 0.1 SOL, monitored account 0.05 SOL. *)
Definition underfunded : Sim := ledger 100000000 50000000.

(** Funding account 0.5 SOL, monitored account 0.05 SOL. *)
Definition funded : Sim := ledger 500000000 50000000.

(** Funding account 0.5 SOL, monitored account 0.15 SOL. *)
Definition healthy : Sim := ledger 500000000 150000000.

Definition not_confirmed : thrown :=
  ErrorObj "Transaction was not confirmed in 30.00 seconds".

(** The transfer goes through, the wait for its confirmation throws. *)
Definition confirmation_times_out : Sim :=
  {| lamports := lamports funded;
     payer := agent_wallet;
     transfer_fails := None;
     confirm_fails := Some not_confirmed;
     stream_answer := inr ([], None) |}.

(** The submission itself throws the same error. *)
Definition submission_rejected : Sim :=
  {| lamports := lamports funded;
     payer := agent_wallet;
     transfer_fails := Some not_confirmed;
     confirm_fails := None;
     stream_answer := inr ([], None) |}.

(** The agent's stream cannot be opened. *)
Definition agent_down : Sim :=
  {| lamports := lamports healthy;
     payer := agent_wallet;
     transfer_fails := None;
     confirm_fails := None;
     stream_answer := inl (ErrorObj "fetch failed") |}.

End Scenario.

(** ** More of src/index.ts *)

(** *** Startup: [validateEnvironment] and the tools of [initializeAgent] *)

Module Startup.

Section Startup.

Context {host : Host}.

(** [process.env]: a variable is unset or has a text. *)
Definition ProcessEnv : Type := string -> option string.

(** [!process.env[varName]]: unset, or set to the empty string. *)
Definition unset (env : ProcessEnv) (varName : string) : bool :=
  match env varName with
  | None => true
  | Some value => negb (JS.truthy value)
  end.

(** Line 16. *)
Definition requiredVars : list string :=
  ["OPENAI_API_KEY"; "RPC_URL"; "SOLANA_PRIVATE_KEY"].

(** Lines 18-22. *)
Definition missingVars (env : ProcessEnv) : list string :=
  filter (unset env) requiredVars.

(** How [validateEnvironment] ends: it returns, or it leaves the process
    with a code after the lines it wrote with [console.error]. *)
Inductive Validation : Type :=
| Validated
| ProcessExit (code : Z) (stderr : list string).

(** Lines 14-31. *)
Definition validateEnvironment (env : ProcessEnv) : Validation :=
  let missing := missingVars env in
  if Nat.ltb 0 (List.length missing)
  then ProcessExit 1
         ("Error: Required environment variables are not set" ::
          map (fun varName =>
                 varName ++ "=your_" ++ toLowerCase varName ++ "_here")
              missing)
  else Validated.

End Startup.

Section InfoTools.

Context {host : Host} {W : Type}.

(** What the three tools of lines 70-105 ask of the agent kit.  The price
    is taken as the text its interpolation gives. *)
Class AgentKit : Type := {
  getTPS : W -> (thrown + float) * W;
  fetchTokenPrice : string -> W -> (thrown + string) * W
}.

Context {kit : AgentKit}.

(** A call on the agent kit; these calls are outside the events of the
    ledger protocol. *)
Definition ask {A} (call : W -> (thrown + A) * W) : M W A :=
  fun w => let '(r, w1) := call w in (r, w1, []).

(** Line 85. *)
Definition solMint : string := "So11111111111111111111111111111111111111112".

(** [check_tps], lines 73-76: no [try]. *)
Definition tpsChecker_func : M W string :=
  tps <- ask getTPS ;;
  ret ("Current Solana network TPS: " ++ JS.numberToString tps).

(** [check_token_price], lines 82-91. *)
Definition tokenPriceChecker_func : M W string :=
  try_catch
    (price <- ask (fetchTokenPrice solMint) ;;
     ret ("SOL price: " ++ price))
    (fun error => ret ("Could not fetch SOL price: " ++ errorText error)).

(** [`${process.env.RPC_URL}`]. *)
Definition env_text (value : option string) : string :=
  match value with
  | Some text => text
  | None => "undefined"
  end.

(** [network_info], lines 97-104. *)
Definition networkInfo_func (RPC_URL : option string) : M W string :=
  try_catch
    (tps <- ask getTPS ;;
     ret ("Solana Network Status:" ++ nl ++ "- TPS: " ++
          JS.numberToString tps ++ nl ++ "- RPC Endpoint: " ++
          env_text RPC_URL))
    (fun error => ret ("Could not fetch network info: " ++ errorText error)).

End InfoTools.

End Startup.

(** *** The whole of [runChatMode] *)

Module Chat.

Section Chat.

Context {host : Host} {W : Type} {env : Environment W}.

Import Index.

(** How a chat session stands once the lines typed so far are used up:
    the loop was left by [break] and the function returned, the [catch]
    of line 287 left the process, or the next [question] is waiting. *)
Inductive ChatEnd : Type :=
| Returned
| ProcessExit (code : Z)
| AwaitingInput.

(** The [while (true)] of lines 230-286 on the lines the user types. *)
Fixpoint chat_loop (tools : list Tool) (inputs : list string)
  : M W ChatEnd :=
  match inputs with
  | [] => ret AwaitingInput
  | userInput :: rest =>
    turn <- chat_turn tools userInput ;;
    match turn with
    | Break => ret Returned
    | Continue => chat_loop tools rest
    end
  end.

(** The [catch] of lines 287-291. *)
Definition chat_catch (error : thrown) : M W ChatEnd :=
  match error with
  | ErrorObj message => console_error "Error:" message
  | NonError _ => ret tt
  end ;;;
  ret (ProcessExit 1).

(** [runChatMode], lines 218-295.  The prompts and the closing of the
    readline interface are not events of the model. *)
Definition runChatMode (tools : list Tool) (inputs : list string)
  : M W ChatEnd :=
  console_log "Starting chat mode... Type 'exit' to end." ;;;
  try_catch (chat_loop tools inputs) chat_catch.

End Chat.

End Chat.

(** *** Shapes of traces *)

Section TraceShapes.

Context {host : Host} {W : Type} {env : Environment W}.

Definition is_agent_stream (ev : Event) : bool :=
  match ev with
  | AgentStream _ => true
  | _ => false
  end.

Definition agent_calls (t : list Event) : list Event :=
  filter is_agent_stream t.

(** The events of kind [p] of a computation: [ok] when it completes,
    [bad] when it throws. *)
Definition traced (p : Event -> bool) {A} (m : M W A)
  (ok bad : list Event) : Prop :=
  forall w, filter p (snd (m w))
            = match fst (fst (m w)) with
              | inr _ => ok
              | inl _ => bad
              end.

(** A computation with no event of kind [p]. *)
Definition silent (p : Event -> bool) {A} (m : M W A) : Prop :=
  forall w, filter p (snd (m w)) = [].

End TraceShapes.

(** *** A scripted ledger

    A second environment for the concrete runs: the balance queries are
    answered from a list, one answer a query, and the transfer and the
    confirmation have a fixed answer each. *)

Module Script.

Import Reference.

Record Scripted : Type := {
  balance_answers : list (thrown + float);
  transfer_answer : thrown + string;
  confirm_answer : thrown + unit
}.

Definition next_balance (w : Scripted) : (thrown + float) * Scripted :=
  match balance_answers w with
  | [] => (inl (ErrorObj "no answer"), w)
  | answer :: rest =>
    (answer,
     {| balance_answers := rest;
        transfer_answer := transfer_answer w;
        confirm_answer := confirm_answer w |})
  end.

#[export] Instance scripted : Environment Scripted := {|
  getBalance := fun _ w => next_balance w;
  transfer := fun _ _ w => (transfer_answer w, w);
  confirmTransaction := fun _ _ w => (confirm_answer w, w);
  agent_stream := fun _ w => (inr ([], None), w)
|}.

Definition script (answers : list (thrown + float)) : Scripted :=
  {| balance_answers := answers;
     transfer_answer := inr "5igNature";
     confirm_answer := inr tt |}.

End Script.

(** An agent kit whose network calls fail, for the concrete runs of the
    informational tools. *)
Module KitDown.

Import Reference.

#[export] Instance kit_down : Startup.AgentKit (W := unit) := {|
  Startup.getTPS := fun w => (inl (ErrorObj "fetch failed"), w);
  Startup.fetchTokenPrice := fun _ w => (inl (NonError "timeout"), w)
|}.

End KitDown.

(** * Properties *)

(** ** Numbers and strings *)

Lemma SFleb_not_SFltb (x y : spec_float) :
  SFleb x y = true -> SFltb y x = false.
Proof.
  unfold SFleb, SFltb, SFcompare.
  destruct x as [sx|sx| |sx mx ex], y as [sy|sy| |sy my ey];
    try destruct sx; try destruct sy; try congruence.
  all: change PosDef.Pos.compare_cont with Pos.compare_cont.
  all: assert (Hp : Pos.compare_cont Eq my mx
                    = CompOpp (Pos.compare_cont Eq mx my))
    by (rewrite (Pos.compare_cont_antisym mx my Eq); reflexivity).
  all: rewrite (Z.compare_antisym ex ey), Hp;
    destruct (ex ?= ey)%Z; simpl; try congruence;
    destruct (Pos.compare_cont Eq mx my); simpl; congruence.
Qed.

(** In binary64, [a <= b] excludes [b < a]. *)
Lemma leb_not_ltb (a b : float) :
  (a <=? b)%float = true -> (b <? a)%float = false.
Proof.
  rewrite leb_spec, ltb_spec. apply SFleb_not_SFltb.
Qed.

Lemma prefix_app (a b : string) : String.prefix a (a ++ b) = true.
Proof.
  induction a as [|c a IH]; simpl.
  - destruct b; reflexivity.
  - rewrite IH. destruct (ascii_dec c c); congruence.
Qed.

Lemma includes_here (a b : string) : JS.includes (a ++ b) a = true.
Proof.
  destruct a; simpl.
  - destruct b; reflexivity.
  - rewrite prefix_app. destruct (ascii_dec a a); [reflexivity|congruence].
Qed.

(** A text contains each of the pieces it is put together from. *)
Lemma includes_skip (a s sub : string) :
  JS.includes s sub = true -> JS.includes (a ++ s) sub = true.
Proof.
  induction a as [|c a IH]; simpl; intros H; [exact H|].
  rewrite (IH H). apply orb_true_r.
Qed.

Lemma append_assoc (a b c : string) : (a ++ b) ++ c = a ++ b ++ c.
Proof. induction a as [|x a IH]; simpl; [reflexivity | now rewrite IH]. Qed.

Lemma append_empty (a : string) : a ++ "" = a.
Proof. induction a as [|x a IH]; simpl; [reflexivity | now rewrite IH]. Qed.

Lemma includes_refl (a : string) : JS.includes a a = true.
Proof.
  rewrite <- (append_empty a) at 1. apply includes_here.
Qed.

Lemma prefix_weaken (a b s : string) :
  String.prefix (a ++ b) s = true -> String.prefix a s = true.
Proof.
  revert s. induction a as [|c a IH]; intros s H; [now destruct s|].
  destruct s as [|d s]; simpl in *; [discriminate|].
  destruct (ascii_dec c d); [apply IH, H | discriminate].
Qed.

Lemma prefix_cong (c a b : string) :
  String.prefix a b = true -> String.prefix (c ++ a) (c ++ b) = true.
Proof.
  intros H. induction c as [|x c IH]; simpl; [exact H|].
  destruct (ascii_dec x x); [exact IH | congruence].
Qed.

(** A text that contains a piece contains every beginning of it. *)
Lemma includes_weaken (s a b : string) :
  JS.includes s (a ++ b) = true -> JS.includes s a = true.
Proof.
  induction s as [|c s IH]; cbn [JS.includes]; intros H.
  - apply orb_true_iff in H. destruct H as [H|H]; [|discriminate].
    rewrite (prefix_weaken _ _ _ H). reflexivity.
  - apply orb_true_iff in H. destruct H as [H|H].
    + rewrite (prefix_weaken _ _ _ H). reflexivity.
    + rewrite (IH H). apply orb_true_r.
Qed.

(** ** Running the monad *)

Section MonadFacts.

Context {host : Host} {W : Type} {env : Environment W}.

Lemma bind_ok {A B} (m : M W A) (k : A -> M W B) w a w1 t1 :
  m w = (inr a, w1, t1) ->
  bind m k w = (let '(r, w2, t2) := k a w1 in (r, w2, (t1 ++ t2)%list)).
Proof. intros H. unfold bind. rewrite H. reflexivity. Qed.

Lemma returns_ret {A} (a : A) : returns W (ret a).
Proof. intros w. exists a, w, []. reflexivity. Qed.

Lemma returns_emit (ev : Event) : returns W (emit ev).
Proof. intros w. exists tt, w, [ev]. reflexivity. Qed.

Lemma returns_bind {A B} (m : M W A) (k : A -> M W B) :
  returns W m -> (forall a, returns W (k a)) -> returns W (bind m k).
Proof.
  intros Hm Hk w.
  destruct (Hm w) as (a & w1 & t1 & E1).
  destruct (Hk a w1) as (b & w2 & t2 & E2).
  exists b, w2, (t1 ++ t2)%list.
  rewrite (bind_ok _ _ _ _ _ _ E1), E2. reflexivity.
Qed.

Lemma returns_try {A} (m : M W A) (h : thrown -> M W A) :
  (forall e, returns W (h e)) -> returns W (try_catch m h).
Proof.
  intros Hh w. unfold try_catch.
  destruct (m w) as [[[e|a] w1] t1].
  - destruct (Hh e w1) as (b & w2 & t2 & E2). rewrite E2.
    exists b, w2, (t1 ++ t2)%list. reflexivity.
  - exists a, w1, t1. reflexivity.
Qed.

Lemma ends_with_emit (ev : Event) : ends_with W (emit ev) ev.
Proof.
  intros w a w1 t H. injection H as _ _ <-. exists []. reflexivity.
Qed.

Lemma ends_with_bind {A B} (m : M W A) (k : A -> M W B) ev :
  (forall a, ends_with W (k a) ev) -> ends_with W (bind m k) ev.
Proof.
  intros Hk w b w2 t H. unfold bind in H.
  destruct (m w) as [[[e|a] w1] t1]; [discriminate|].
  destruct (k a w1) as [[r w2'] t2] eqn:E.
  injection H as -> -> <-.
  destruct (Hk a w1 b w2 t2 E) as (t0 & ->).
  exists (t1 ++ t0)%list. apply app_assoc.
Qed.

Lemma returns_fmap {A B} (f : A -> B) (m : M W A) :
  returns W m -> returns W (fmap f m).
Proof. intros H. apply returns_bind; [exact H|]. intros a. apply returns_ret. Qed.

End MonadFacts.

(** ** The paths of [_call] *)

(** Unfold a computation down to the answers of the environment, and
    feed it the answers at hand, in program order. *)
Ltac unfold_run :=
  cbv beta iota zeta delta
    [BalanceMonitorTool._call_reply BalanceMonitorTool.top_up
     BalanceMonitorTool.transfer_and_confirm Part000._call_reply
     solanaAgent_transfer connection_confirmTransaction connection_getBalance
     console_log console_error sleep
     perform bind try_catch ret throw lift emit].

Ltac answer H := rewrite H; cbv beta iota zeta.

Ltac answers :=
  repeat match goal with
         | H : _ = _ |- _ => rewrite H; clear H; cbv beta iota zeta
         end.

Section CallPaths.

Context {host : Host} {W : Type} {env : Environment W}.

Import BalanceMonitorTool.

Variable this : BalanceMonitorTool.t.

(** Each path of the relation is a run of [_call]. *)
Lemma run_sound input w r w' t :
  Run this input w r w' t -> _call_reply this input w = (inr r, w', t).
Proof.
  intros H. destruct H; unfold_run; answers; reflexivity.
Qed.

(** Every call takes one of the paths: [_call] has a reply for every
    input and every behaviour of its collaborators. *)
Lemma run_total input w : exists r w' t, Run this input w r w' t.
Proof.
  destruct (targetWallet_of this input) as [e|targetWallet] eqn:Ht.
  { eauto using RunParseThrows. }
  destruct (getBalance targetWallet w) as [[e|balance] w1] eqn:Hb.
  { eauto using RunQueryThrows. }
  destruct (balance / LAMPORTS_PER_SOL <? minBalanceSol this)%float eqn:Hlow.
  2: { eauto using RunHealthy. }
  destruct (getBalance (wallet_publicKey this) w1)
    as [[e|sourceBalance] w2] eqn:Hs.
  { eauto using RunSourceThrows. }
  destruct (sourceBalance / LAMPORTS_PER_SOL <? requiredAmount this)%float
    eqn:Hshort.
  { eauto using RunNeedFunds. }
  destruct (transfer targetWallet (topUpAmountSol this) w2)
    as [[e|signature] w3] eqn:Hx.
  { eauto using RunTransferThrows. }
  destruct (confirmTransaction signature "confirmed" w3)
    as [[e|[]] w4] eqn:Hc.
  { eauto using RunConfirmThrows. }
  destruct (getBalance targetWallet w4) as [[e|newBalance] w5] eqn:Hn.
  { eauto using RunRequeryThrows. }
  eauto 10 using RunToppedUp.
Qed.

(** The relation says all there is about a run. *)
Lemma run_complete input w r w' t :
  _call_reply this input w = (r, w', t) ->
  exists reply, r = inr reply /\ Run this input w reply w' t.
Proof.
  intros H. destruct (run_total input w) as (reply & v & s & R).
  rewrite (run_sound _ _ _ _ _ R) in H. inversion H; subst.
  exists reply. split; [reflexivity | exact R].
Qed.

(** The text is the rendering of the reply, with the same world and the
    same calls. *)
Lemma call_renders input w r w1 t1 :
  _call_reply this input w = (inr r, w1, t1) ->
  _call this input w = (inr (render r), w1, t1).
Proof.
  intros H. unfold _call, fmap, bind. rewrite H. simpl.
  rewrite app_nil_r. reflexivity.
Qed.

(** What the inner [catch] can return. *)
Lemma transfer_catch_kind b e :
  classify (transfer_catch this b e) = InsufficientFunds \/
  classify (transfer_catch this b e) = TransferFailed.
Proof.
  destruct e as [message|s]; simpl; [|now right].
  destruct (JS.includes (toLowerCase message) "insufficient lamports"
            || JS.includes (toLowerCase message) "0x1"); [now left|].
  destruct (JS.includes (toLowerCase message) "attempt to debit");
    now right.
Qed.

Lemma transfer_catch_not_need_funds b e b' required source :
  transfer_catch this b e <> NeedFunds b' required source.
Proof.
  destruct e as [message|s]; simpl; [|discriminate].
  destruct (JS.includes (toLowerCase message) "insufficient lamports"
            || JS.includes (toLowerCase message) "0x1"); [discriminate|].
  destruct (JS.includes (toLowerCase message) "attempt to debit");
    discriminate.
Qed.

Lemma call_catch_kind e :
  classify (call_catch e) = InvalidInput \/
  classify (call_catch e) = TransientError.
Proof.
  destruct e as [message|s]; simpl; [|now right].
  destruct (JS.includes message "Invalid public key"); [now left|now right].
Qed.

(** No path ends in a reply that reports an unknown confirmation. *)
Lemma run_never_unknown input w r w' t :
  Run this input w r w' t -> classify r <> ConfirmationUnknown.
Proof.
  intros R. destruct R; try (simpl; discriminate);
    match goal with
    | |- classify (transfer_catch ?a ?b ?c) <> _ =>
      destruct (transfer_catch_kind b c) as [Q|Q]; rewrite Q; discriminate
    | |- classify (call_catch ?c) <> _ =>
      destruct (call_catch_kind c) as [Q|Q]; rewrite Q; discriminate
    end.
Qed.

Lemma call_catch_not_need_funds e b' required source :
  call_catch e <> NeedFunds b' required source.
Proof.
  destruct e as [message|s]; simpl; [|discriminate].
  destruct (JS.includes message "Invalid public key"); discriminate.
Qed.

End CallPaths.

(** ** The claims about [_call] *)

Ltac includes_piece :=
  repeat first [apply includes_here | apply includes_refl
               | apply includes_skip].

Section ToolClaims.

Context {host : Host} {W : Type} {env : Environment W}.

Import BalanceMonitorTool.

Local Abbreviation sol x := (x / LAMPORTS_PER_SOL)%float.

(** C1.  When the target's balance is below [minBalanceSol] and the
    funding account's balance is below [topUpAmountSol + 0.000005], the
    call returns the reply of line 55, which reports insufficient funds,
    and its calls are the two balance queries: no transfer is submitted. *)
Theorem C1_insufficient_funds_before_any_transfer
  (this : BalanceMonitorTool.t) (input : string) (w : W)
  (targetWallet : PublicKey) (balance : float) (w1 : W)
  (sourceBalance : float) (w2 : W) :
  targetWallet_of this input = inr targetWallet ->
  getBalance targetWallet w = (inr balance, w1) ->
  (sol balance <? minBalanceSol this)%float = true ->
  getBalance (wallet_publicKey this) w1 = (inr sourceBalance, w2) ->
  (sol sourceBalance <? topUpAmountSol this + 0.000005)%float = true ->
  let reply := NeedFunds (firstMessage (sol balance))
                         (topUpAmountSol this + 0.000005)%float
                         (wallet_publicKey this) in
  let calls := [GetBalance targetWallet; GetBalance (wallet_publicKey this)] in
  _call_reply this input w = (inr reply, w2, calls) /\
  _call this input w = (inr (render reply), w2, calls) /\
  classify reply = InsufficientFunds /\
  transfers calls = [].
Proof.
  intros Ht Hb Hlow Hs Hshort reply calls.
  assert (E : _call_reply this input w = (inr reply, w2, calls))
    by (apply run_sound; eapply RunNeedFunds; eauto).
  repeat split; [exact E | apply call_renders, E].
Qed.

(** C2, as the code has it.  When the submission succeeds and the wait
    for the confirmation throws, the call returns normally with the reply
    of the shared [catch] block of lines 74-86 for the thrown value: the
    reply a submission that throws the same value gets.  It reports a
    failed transfer or insufficient funds; no reply of [_call] reports an
    unknown confirmation. *)
Theorem C2_confirmation_failure_takes_the_transfer_catch
  (this : BalanceMonitorTool.t) (input : string) (w : W)
  (targetWallet : PublicKey) (balance : float) (w1 : W)
  (sourceBalance : float) (w2 : W) (signature : string) (w3 : W)
  (e : thrown) (w4 : W) :
  targetWallet_of this input = inr targetWallet ->
  getBalance targetWallet w = (inr balance, w1) ->
  (sol balance <? minBalanceSol this)%float = true ->
  getBalance (wallet_publicKey this) w1 = (inr sourceBalance, w2) ->
  (sol sourceBalance <? requiredAmount this)%float = false ->
  transfer targetWallet (topUpAmountSol this) w2 = (inr signature, w3) ->
  confirmTransaction signature "confirmed" w3 = (inl e, w4) ->
  let reply :=
    transfer_catch this (secondMessage (sol balance) (sol sourceBalance)) e in
  _call_reply this input w
  = (inr reply, w4,
     [GetBalance targetWallet; GetBalance (wallet_publicKey this);
      Transfer targetWallet (topUpAmountSol this);
      ConfirmTransaction signature "confirmed"]) /\
  (classify reply = InsufficientFunds \/ classify reply = TransferFailed) /\
  (forall v v1 v2 v3,
      getBalance targetWallet v = (inr balance, v1) ->
      getBalance (wallet_publicKey this) v1 = (inr sourceBalance, v2) ->
      transfer targetWallet (topUpAmountSol this) v2 = (inl e, v3) ->
      _call_reply this input v
      = (inr reply, v3,
         [GetBalance targetWallet; GetBalance (wallet_publicKey this);
          Transfer targetWallet (topUpAmountSol this)])) /\
  (forall v r v' t,
      _call_reply this input v = (inr r, v', t) ->
      classify r = ConfirmationUnknown -> False).
Proof.
  intros Ht Hb Hlow Hs Hok Hx Hc reply.
  split; [|split; [|split]].
  - apply run_sound. eapply RunConfirmThrows; eauto.
  - apply transfer_catch_kind.
  - intros v v1 v2 v3 Hb' Hs' Hx'.
    apply run_sound. eapply RunTransferThrows; eauto.
  - intros v r v' t E K.
    apply run_complete in E. destruct E as (r' & Er & R).
    injection Er as <-. exact (run_never_unknown _ _ _ _ _ _ R K).
Qed.

(** C3.  When the target's balance is at least [minBalanceSol], the call
    returns the healthy reply at once; its only call is the balance query
    of the target, so it submits no transfer.  Both revisions of the class
    do so. *)
Theorem C3_healthy_no_transfer
  (this : BalanceMonitorTool.t) (this0 : Part000.t) (input : string) (w : W)
  (targetWallet : PublicKey) (balance : float) (w1 : W) :
  targetWallet_of this input = inr targetWallet ->
  Part000.targetWallet_of this0 input = inr targetWallet ->
  getBalance targetWallet w = (inr balance, w1) ->
  (minBalanceSol this <=? sol balance)%float = true ->
  (Part000.minBalanceSol this0 <=? sol balance)%float = true ->
  let reply := BalanceOnly (firstMessage (sol balance)) in
  let reply0 := Part000.NoTopUpNeeded targetWallet (sol balance) in
  let calls := [GetBalance targetWallet] in
  (_call_reply this input w = (inr reply, w1, calls) /\
   _call this input w = (inr (render reply), w1, calls) /\
   classify reply = Healthy) /\
  (Part000._call_reply this0 input w = (inr reply0, w1, calls) /\
   Part000._call this0 input w = (inr (Part000.render reply0), w1, calls) /\
   Part000.classify reply0 = Healthy) /\
  transfers calls = [] /\ ledger_calls calls = calls.
Proof.
  intros Ht Ht0 Hb Hge Hge0 reply reply0 calls.
  apply leb_not_ltb in Hge. apply leb_not_ltb in Hge0.
  assert (E : _call_reply this input w = (inr reply, w1, calls))
    by (apply run_sound; eapply RunHealthy; eauto).
  assert (E0 : Part000._call_reply this0 input w = (inr reply0, w1, calls)).
  { unfold_run. answer Ht0. answer Hb. answer Hge0. reflexivity. }
  split; [|split].
  - repeat split; [exact E | apply call_renders, E].
  - repeat split; [exact E0|].
    unfold Part000._call, fmap, bind. rewrite E0. reflexivity.
  - split; reflexivity.
Qed.

(** C4, as the code has it.  Whenever the call returns the reply of the
    solvency check (line 55), the text names the funding account's
    address and the required amount, [topUpAmountSol + 0.000005] with six
    decimals, and no transfer was submitted.  The amount is the whole
    requirement, not the part of it that the funding account lacks. *)
Theorem C4_need_funds_names_address_and_required_amount
  (this : BalanceMonitorTool.t) (input : string) (w : W)
  (b : BalanceMessage) (required : float) (source : PublicKey)
  (w' : W) (t : list Event) :
  _call_reply this input w = (inr (NeedFunds b required source), w', t) ->
  source = wallet_publicKey this /\
  required = (topUpAmountSol this + 0.000005)%float /\
  JS.includes (render (NeedFunds b required source))
              (PublicKey_toString source) = true /\
  JS.includes (render (NeedFunds b required source))
              (JS.toFixed required 6) = true /\
  _call this input w = (inr (render (NeedFunds b required source)), w', t) /\
  transfers t = [].
Proof.
  intros E. pose proof (call_renders _ _ _ _ _ _ E) as Etext.
  apply run_complete in E. destruct E as (r & Er & R).
  injection Er as Er.
  assert (Shape : source = wallet_publicKey this /\
                  required = requiredAmount this /\ transfers t = []).
  { destruct R; try discriminate;
      try (exfalso; eapply transfer_catch_not_need_funds; eauto; fail);
      try (exfalso; eapply call_catch_not_need_funds; eauto; fail).
    injection Er as Eb Ereq Esrc. subst. repeat split. }
  destruct Shape as (Hs & Hr & Hn).
  repeat split; try assumption.
  - unfold render. includes_piece.
  - unfold render. includes_piece.
Qed.

(** C5, as the code has it.  After a submission and a confirmation that
    both succeed, the new balance in the reply is the answer of a balance
    query of the target made after the confirmation, whatever that answer
    is; the reply also carries the old balance of the target and the
    balance of the funding account as queried before the transfer was
    submitted. *)
Theorem C5_new_balance_is_queried_after_confirmation
  (this : BalanceMonitorTool.t) (input : string) (w : W)
  (targetWallet : PublicKey) (balance : float) (w1 : W)
  (sourceBalance : float) (w2 : W) (signature : string) (w3 w4 : W)
  (newBalance : float) (w5 : W) :
  targetWallet_of this input = inr targetWallet ->
  getBalance targetWallet w = (inr balance, w1) ->
  (sol balance <? minBalanceSol this)%float = true ->
  getBalance (wallet_publicKey this) w1 = (inr sourceBalance, w2) ->
  (sol sourceBalance <? requiredAmount this)%float = false ->
  transfer targetWallet (topUpAmountSol this) w2 = (inr signature, w3) ->
  confirmTransaction signature "confirmed" w3 = (inr tt, w4) ->
  getBalance targetWallet w4 = (inr newBalance, w5) ->
  let reply :=
    TransferSuccessful
      {| current := sol balance; mine := Some (sol sourceBalance) |}
      (sol newBalance) in
  _call_reply this input w
  = (inr reply, w5,
     [GetBalance targetWallet; GetBalance (wallet_publicKey this);
      Transfer targetWallet (topUpAmountSol this);
      ConfirmTransaction signature "confirmed";
      GetBalance targetWallet]) /\
  classify reply = ToppedUp /\
  JS.includes (render reply)
    ("Current balance: " ++ JS.toFixed (sol balance) 4 ++ " SOL") = true /\
  JS.includes (render reply)
    ("My wallet balance: " ++ JS.toFixed (sol sourceBalance) 4 ++ " SOL")
  = true /\
  JS.includes (render reply)
    ("New balance: " ++ JS.toFixed (sol newBalance) 4 ++ " SOL") = true.
Proof.
  intros Ht Hb Hlow Hs Hok Hx Hc Hn reply.
  split; [|split; [reflexivity|]].
  - apply run_sound.
    exact (RunToppedUp this input w targetWallet balance w1 sourceBalance w2
             signature w3 w4 newBalance w5 Ht Hb Hlow Hs Hok Hx Hc Hn).
  - unfold reply, render, render_balanceMessage; simpl mine; simpl current.
    repeat split.
    + rewrite !append_assoc.
      rewrite <- (append_assoc (JS.toFixed (sol balance) 4) " SOL").
      rewrite <- (append_assoc "Current balance: ").
      apply includes_here.
    + rewrite !append_assoc. do 4 apply includes_skip.
      rewrite <- (append_assoc (JS.toFixed (sol sourceBalance) 4) " SOL").
      rewrite <- (append_assoc "My wallet balance: ").
      apply includes_here.
    + do 4 apply includes_skip. apply includes_refl.
Qed.

End ToolClaims.

(** ** The drivers *)

Section DriverFacts.

Context {host : Host} {W : Type} {env : Environment W}.

Import Index.

Lemma cycle_catch_run (error : thrown) (w : W) :
  cycle_catch error w = (inr tt, w, recovery error).
Proof. destruct error; reflexivity. Qed.

(** A pass whose [try] block throws runs the [catch] block and ends
    normally. *)
Lemma cycle_after_throw tools interval (w : W) e w1 t1 :
  cycle_try tools interval w = (inl e, w1, t1) ->
  cycle tools interval w = (inr tt, w1, (t1 ++ recovery e)%list).
Proof.
  intros H. unfold cycle, try_catch. rewrite H, cycle_catch_run. reflexivity.
Qed.

Lemma cycle_after_return tools interval (w : W) u w1 t1 :
  cycle_try tools interval w = (inr u, w1, t1) ->
  cycle tools interval w = (inr tt, w1, t1).
Proof.
  intros H. unfold cycle, try_catch. rewrite H. destruct u. reflexivity.
Qed.

(** No pass throws. *)
Lemma cycle_returns tools interval (w : W) :
  exists w1 t1, cycle tools interval w = (inr tt, w1, t1).
Proof.
  destruct (cycle_try tools interval w) as [[[e|u] w1] t1] eqn:E.
  - exists w1, (t1 ++ recovery e)%list. apply cycle_after_throw, E.
  - exists w1, t1. eapply cycle_after_return, E.
Qed.

(** The next pass starts from the world the pass before left, whatever
    that pass did. *)
Lemma passes_next n tools interval (w : W) w1 t1 :
  cycle tools interval w = (inr tt, w1, t1) ->
  passes (S n) tools interval w
  = (let '(r, w2, t2) := passes n tools interval w1 in
     (r, w2, (t1 ++ t2)%list)).
Proof. intros H. simpl. unfold bind. rewrite H. reflexivity. Qed.

(** After any number of passes the loop is still running. *)
Lemma passes_return n tools interval (w : W) :
  exists w' t, passes n tools interval w = (inr tt, w', t).
Proof.
  revert w. induction n as [|n IH]; intros w.
  - exists w, []. reflexivity.
  - destruct (cycle_returns tools interval w) as (w1 & t1 & E1).
    destruct (IH w1) as (w2 & t2 & E2).
    exists w2, (t1 ++ t2)%list.
    rewrite (passes_next _ _ _ _ _ _ E1), E2. reflexivity.
Qed.

(** A [try] block that completes ends with the wait of the cadence. *)
Lemma cycle_try_ends_with_wait tools interval :
  ends_with W (cycle_try tools interval) (SetTimeout (cadence_ms interval)).
Proof.
  unfold cycle_try.
  repeat (apply ends_with_bind; intros ?).
  apply ends_with_emit.
Qed.

(** The tool never throws, so neither does a driver that only calls it. *)
Lemma tool_returns (this : BalanceMonitorTool.t) input :
  returns W (BalanceMonitorTool._call this input).
Proof.
  apply returns_fmap. unfold BalanceMonitorTool._call_reply.
  apply returns_try. intros e. apply returns_ret.
Qed.

Lemma transfer_request_returns (balanceMonitor : Tool) :
  returns W (transfer_request balanceMonitor).
Proof.
  apply returns_try. intros e. apply returns_emit.
Qed.

(** The passes after the first [k] start from the world those left. *)
Lemma passes_after k m tools interval (w0 w : W) t0 :
  passes k tools interval w0 = (inr tt, w, t0) ->
  passes (k + m) tools interval w0
  = (let '(r, w', t') := passes m tools interval w in
     (r, w', (t0 ++ t')%list)).
Proof.
  revert w0 t0. induction k as [|k IH]; intros w0 t0 H.
  - injection H as <- <-. simpl.
    destruct (passes m tools interval w0) as [[r w'] t']. reflexivity.
  - destruct (cycle_returns tools interval w0) as (wa & ta & Ea).
    rewrite (passes_next _ _ _ _ _ _ Ea) in H.
    destruct (passes k tools interval wa) as [[r wb] tb] eqn:Eb.
    injection H as -> -> <-.
    change (S k + m)%nat with (S (k + m)).
    rewrite (passes_next _ _ _ _ _ _ Ea), (IH _ _ Eb).
    destruct (passes m tools interval w) as [[r w'] t'].
    rewrite app_assoc. reflexivity.
Qed.

Lemma passes_two tools interval (w : W) w1 t1 w2 t2 :
  cycle tools interval w = (inr tt, w1, t1) ->
  cycle tools interval w1 = (inr tt, w2, t2) ->
  passes 2 tools interval w = (inr tt, w2, (t1 ++ t2)%list).
Proof.
  intros E1 E2.
  rewrite (passes_next _ _ _ _ _ _ E1), (passes_next _ _ _ _ _ _ E2).
  simpl. rewrite app_nil_r. reflexivity.
Qed.

(** The loop as [main] starts it, line 337: no interval is passed, the
    passes run at the default. *)
Lemma runAutonomousMode_passes n tools (w0 : W) r w t :
  passes n tools default_interval w0 = (r, w, t) ->
  runAutonomousMode n tools None w0
  = (r, w,
     ([ConsoleLog (nl ++ "🤖 Initializing Self-Healing AI Agent...");
       ConsoleLog ("🔄 Running continuous monitoring and maintenance cycle"
                   ++ nl)] ++ t)%list).
Proof.
  intros H. unfold runAutonomousMode, bind, console_log, emit.
  rewrite H. reflexivity.
Qed.

(** Every pass begins with the separator of line 164: it is a pass of its
    own, begun anew. *)
Lemma cycle_starts tools interval (w : W) w2 t2 :
  cycle tools interval w = (inr tt, w2, t2) ->
  exists t2', t2 = ConsoleLog (nl ++ rule50) :: t2'.
Proof.
  unfold cycle, try_catch, cycle_try.
  unfold bind at 1. unfold console_log at 1. unfold emit at 1.
  cbv beta iota zeta.
  destruct (bind _ _ w) as [[[e|u] w'] t'].
  - rewrite cycle_catch_run. intros H. inversion H; subst.
    eexists. reflexivity.
  - intros H. inversion H; subst. eexists. reflexivity.
Qed.

(** The pass runs the check of the wallet whole: the calls of
    [_call("check")] sit between the line that announces the check and the
    report of its text, and the rest of the pass comes after them. *)
Lemma cycle_runs_the_check (this : BalanceMonitorTool.t) tools interval
  (v : W) :
  find_balance_monitor tools = Some (balance_monitor_tool this) ->
  exists text v1 t1 v2 post,
    BalanceMonitorTool._call this "check" v = (inr text, v1, t1) /\
    cycle tools interval v
    = (inr tt, v2,
       ([ConsoleLog (nl ++ rule50);
         ConsoleLog "🔍 DIAGNOSTIC CYCLE STARTING";
         ConsoleLog rule50;
         ConsoleLog (nl ++ "💰 Checking Wallet Health...")] ++
        t1 ++
        ConsoleLog "📊 Status Report:" :: ConsoleLog text :: post)%list).
Proof.
  intros Hfind.
  destruct (tool_returns this "check" v) as (text & v1 & t1 & E).
  exists text, v1, t1.
  unfold cycle, try_catch, cycle_try. rewrite Hfind.
  unfold bind, console_log, sleep, emit, perform.
  cbn [call balance_monitor_tool]. rewrite E. cbv beta iota zeta.
  destruct (agent_stream thought v1) as [[e|stream] v2].
  - rewrite cycle_catch_run. exists v2. eexists. split; [reflexivity|].
    repeat first [rewrite <- app_assoc | progress cbn [app]].
    reflexivity.
  - destruct (for_await print_chunk_auto (fst stream) (snd stream) v2)
      as [[[e|u] v3] t3].
    + rewrite cycle_catch_run. exists v3. eexists. split; [reflexivity|].
      repeat first [rewrite <- app_assoc | progress cbn [app]].
      reflexivity.
    + destruct u. cbv beta iota zeta.
      exists v3. eexists. split; [reflexivity|].
      repeat first [rewrite <- app_assoc | progress cbn [app]].
      reflexivity.
Qed.

End DriverFacts.

(** ** The claims about the input and the drivers *)

Section DriverClaims.

Context {host : Host} {W : Type} {env : Environment W}.

Import BalanceMonitorTool Index.

(** The reply of the outer [catch] reports an invalid input exactly for
    an [Error] whose message contains the text of line 91. *)
Lemma call_catch_invalid_input (e : thrown) :
  classify (call_catch e) = InvalidInput <->
  exists message,
    e = ErrorObj message /\ JS.includes message "Invalid public key" = true.
Proof.
  split.
  - destruct e as [message|s]; simpl; [|discriminate].
    destruct (JS.includes message "Invalid public key") eqn:E;
      [|discriminate].
    intros _. exists message. split; [reflexivity | exact E].
  - intros (message & -> & E). simpl. rewrite E. reflexivity.
Qed.

(** The paths of lines 34-36 and 90-95.  The empty string and ["check"]
    resolve to the default wallet, whatever the constructor of
    [PublicKey] would do with them.  Any other input goes to the
    constructor, and when that throws the call returns at once, with no
    call on the connection or the agent kit.  Which reply it returns is
    decided by the test of line 91 on the message of the thrown value:
    the invalid-address reply of line 92 when the message contains
    [Invalid public key], the reply of line 94 with the raw text for any
    other message the constructor throws. *)
Lemma parse_failure_is_answered_without_a_query
  (this : BalanceMonitorTool.t) (input : string) (w : W) (e : thrown) :
  JS.truthy input = true ->
  String.eqb input "check" = false ->
  PublicKey_new input = inl e ->
  targetWallet_of this "" = inr (defaultWallet this) /\
  targetWallet_of this "check" = inr (defaultWallet this) /\
  _call_reply this input w = (inr (call_catch e), w, []) /\
  _call this input w = (inr (render (call_catch e)), w, []) /\
  (classify (call_catch e) = InvalidInput <->
   exists message,
     e = ErrorObj message /\
     JS.includes message "Invalid public key" = true) /\
  (classify (call_catch e) <> InvalidInput ->
   call_catch e = ErrorCheckingBalance (errorText e)).
Proof.
  intros Hne Hcheck Hparse.
  assert (Ht : targetWallet_of this input = inl e).
  { unfold targetWallet_of. rewrite Hne, Hcheck. exact Hparse. }
  assert (E : _call_reply this input w = (inr (call_catch e), w, []))
    by (apply run_sound, RunParseThrows, Ht).
  repeat split; try reflexivity; try exact E.
  - apply call_renders, E.
  - apply call_catch_invalid_input.
  - apply call_catch_invalid_input.
  - destruct e as [message|s]; simpl; [|reflexivity].
    destruct (JS.includes message "Invalid public key");
      [intros K; now elim K | reflexivity].
Qed.

(** The text of a reply, by the kind it reports: the balance line first
    for every reply that has one, then the sentence of its template. *)
Lemma reply_text_by_kind (r : Reply) :
  match classify r with
  | Healthy => String.prefix "Current balance: " (render r) = true
  | ToppedUp =>
    String.prefix "Current balance: " (render r) = true /\
    JS.includes (render r) "Transfer successful! ✅" = true
  | InsufficientFunds =>
    String.prefix "Current balance: " (render r) = true /\
    (JS.includes (render r) "I need some SOL to keep operating! 🙏" = true \/
     JS.includes (render r)
       "Oops! I don't have quite enough SOL for the transfer and fees."
     = true)
  | TransferFailed =>
    String.prefix "Current balance: " (render r) = true /\
    (JS.includes (render r) "Transfer failed: " = true \/
     JS.includes (render r) "Transfer failed. Please try again in a moment."
     = true \/
     JS.includes (render r) "Hmm, it seems the funds haven't arrived yet."
     = true)
  | ConfirmationUnknown => False
  | InvalidInput =>
    render r
    = "Error: Invalid wallet address provided. Please provide a valid Solana wallet address."
  | TransientError =>
    exists text, render r = "Error checking balance: " ++ text
  end.
Proof.
  assert (Hb : forall b rest,
             String.prefix "Current balance: "
                           (render_balanceMessage b ++ rest) = true).
  { intros b rest. unfold render_balanceMessage. rewrite !append_assoc.
    apply (prefix_app "Current balance: "). }
  destruct r; cbn [classify render];
    try (split; [apply Hb|]); try (includes_piece; fail).
  - left. includes_piece.
  - right.
    apply (includes_weaken _ _ " Please send a bit more SOL (").
    includes_piece.
  - right. right.
    apply (includes_weaken _ _
             " Are you sure you sent the SOL? Please verify and let me know by saying ").
    includes_piece.
  - left. includes_piece.
  - right. left. includes_piece.
  - rewrite <- (append_empty (render_balanceMessage b)). apply Hb.
  - reflexivity.
  - exists text. reflexivity.
Qed.

(** A line that asks for the balance or for a transfer is not [exit]. *)
Lemma request_is_not_exit (lower : string) :
  (JS.includes lower "balance" || JS.includes lower "transfer") = true ->
  String.eqb lower "exit" = false.
Proof.
  intros H. destruct (String.eqb lower "exit") eqn:E; [|reflexivity].
  apply String.eqb_eq in E. subst lower. discriminate H.
Qed.

(** C7, as the code has it.  Every call of the tool takes one of the nine
    paths of [_call] and returns the text of its [return] statement as a
    normal value; nothing it meets is thrown to the caller.  The text is
    the one of the kind the reply reports: the balance line alone
    (Healthy), with [Transfer successful!] (ToppedUp), with the request
    for funds (InsufficientFunds), with [Transfer failed] or the note that
    the funds have not arrived (TransferFailed), the invalid-address text
    (InvalidInput), or [Error checking balance: ] and the thrown text; no
    reply reports an unknown confirmation.  A chat turn that asks for the
    balance or for a transfer logs the text of its [_call("check")] and
    goes on with the next prompt, so the exit of line 291 is not reached
    through it, and no pass of the autonomous loop throws. *)
Theorem C7_every_outcome_is_a_returned_text
  (this : BalanceMonitorTool.t) (tools : list Tool) (userInput : string) :
  find_balance_monitor tools = Some (balance_monitor_tool this) ->
  (JS.includes (toLowerCase userInput) "balance"
   || JS.includes (toLowerCase userInput) "transfer") = true ->
  (forall input (w : W), exists reply w' t,
      Run this input w reply w' t /\
      _call this input w = (inr (render reply), w', t) /\
      match classify reply with
      | Healthy => String.prefix "Current balance: " (render reply) = true
      | ToppedUp =>
        String.prefix "Current balance: " (render reply) = true /\
        JS.includes (render reply) "Transfer successful! ✅" = true
      | InsufficientFunds =>
        String.prefix "Current balance: " (render reply) = true /\
        (JS.includes (render reply) "I need some SOL to keep operating! 🙏"
         = true \/
         JS.includes (render reply)
           "Oops! I don't have quite enough SOL for the transfer and fees."
         = true)
      | TransferFailed =>
        String.prefix "Current balance: " (render reply) = true /\
        (JS.includes (render reply) "Transfer failed: " = true \/
         JS.includes (render reply)
           "Transfer failed. Please try again in a moment."
         = true \/
         JS.includes (render reply)
           "Hmm, it seems the funds haven't arrived yet."
         = true)
      | ConfirmationUnknown => False
      | InvalidInput =>
        render reply
        = "Error: Invalid wallet address provided. Please provide a valid Solana wallet address."
      | TransientError =>
        exists text, render reply = "Error checking balance: " ++ text
      end) /\
  (forall w : W, exists reply w1 t1 w' rest,
      Run this "check" w reply w1 t1 /\
      chat_turn tools userInput w
      = (inr Continue, w',
         (t1 ++ ConsoleLog (render reply) :: rest)%list)) /\
  (forall interval n (w : W), exists w' t,
      passes n tools interval w = (inr tt, w', t)).
Proof.
  intros Hfind Hasks. split; [|split].
  - intros input w. destruct (run_total this input w) as (r & w' & t & R).
    exists r, w', t. split; [exact R|]. split.
    + apply call_renders, run_sound, R.
    + apply reply_text_by_kind.
  - intros w. destruct (run_total this "check" w) as (r & w1 & t1 & R).
    pose proof (call_renders _ _ _ _ _ _ (run_sound _ _ _ _ _ _ R)) as E.
    unfold chat_turn. rewrite (request_is_not_exit _ Hasks), Hfind.
    destruct (JS.includes (toLowerCase userInput) "balance").
    + exists r, w1, t1, w1, []. split; [exact R|].
      unfold bind, console_log, emit. cbn [call balance_monitor_tool].
      rewrite E. reflexivity.
    + simpl in Hasks. rewrite Hasks.
      unfold transfer_request, try_catch, bind, console_log, emit.
      cbn [call balance_monitor_tool]. rewrite E. cbv beta iota zeta.
      destruct (negb (JS.includes (render r)
                        "Agent wallet balance: 0.0000 SOL")).
      * destruct (tool_returns this transfer_input w1)
          as (text2 & w2 & t2 & E2).
        rewrite E2. cbv beta iota zeta.
        exists r, w1, t1, w2. eexists. split; [exact R|].
        unfold ret. rewrite app_nil_r. reflexivity.
      * exists r, w1, t1, w1. eexists. split; [exact R|].
        unfold ret. rewrite app_nil_r. reflexivity.
  - intros interval n w. apply passes_return.
Qed.


(** Where a transfer stands in a run of [_call].  It goes to the wallet
    the input resolved to, for [topUpAmountSol], after the two balance
    queries were answered.  When the submission throws it is the last
    call.  When the submission is accepted, the wait for the confirmation
    of the signature it returned is the very next call, made in the world
    the submission left, and the run ends only once that wait has thrown
    or has returned and the balance has been read again. *)
Lemma transfer_is_awaited (this : BalanceMonitorTool.t) input (w : W)
  r w' t to amount :
  Run this input w r w' t ->
  In (Transfer to amount) t ->
  targetWallet_of this input = inr to /\
  amount = topUpAmountSol this /\
  exists balance w1 sourceBalance w2,
    getBalance to w = (inr balance, w1) /\
    getBalance (wallet_publicKey this) w1 = (inr sourceBalance, w2) /\
    ((exists e,
         transfer to amount w2 = (inl e, w') /\
         t = [GetBalance to; GetBalance (wallet_publicKey this);
              Transfer to amount]) \/
     (exists signature w3,
         transfer to amount w2 = (inr signature, w3) /\
         ((exists e,
              confirmTransaction signature "confirmed" w3 = (inl e, w') /\
              t = [GetBalance to; GetBalance (wallet_publicKey this);
                   Transfer to amount;
                   ConfirmTransaction signature "confirmed"]) \/
          (exists w4 answer,
              confirmTransaction signature "confirmed" w3 = (inr tt, w4) /\
              getBalance to w4 = (answer, w') /\
              t = [GetBalance to; GetBalance (wallet_publicKey this);
                   Transfer to amount;
                   ConfirmTransaction signature "confirmed";
                   GetBalance to])))).
Proof.
  intros R Hin.
  destruct R; simpl in Hin;
    repeat match goal with
           | H : _ \/ _ |- _ => destruct H
           | H : False |- _ => destruct H
           | H : _ = Transfer _ _ |- _ => try discriminate H
           end;
    match goal with
    | H : Transfer _ _ = Transfer _ _ |- _ => injection H as -> <-
    end;
    (split; [assumption|]); (split; [reflexivity|]);
    exists balance, w1, sourceBalance, w2;
    (split; [assumption|]); (split; [assumption|]).
  - left. exists e. split; [assumption | reflexivity].
  - right. exists signature, w3. split; [assumption|].
    left. exists e. split; [assumption | reflexivity].
  - right. exists signature, w3. split; [assumption|].
    right. exists w4, (inl e). repeat split; assumption.
  - right. exists signature, w3. split; [assumption|].
    right. exists w4, (inr newBalance). repeat split; assumption.
Qed.


(** The second call of a transfer request, line 261.  The text the chat
    driver passes, ["transfer "] followed by the amount, is not empty and
    is not ["check"], so the tool hands it to the constructor of
    [PublicKey] as if it were an address.  When that throws, the call
    makes no call on the connection or the agent kit, so it submits no
    transfer, and its reply is the one the test of line 91 picks for the
    thrown message.  The calls of the whole request are then those of its
    first call, [_call("check")]. *)
Lemma transfer_text_goes_to_the_parser
  (this : BalanceMonitorTool.t) (w : W) (e : thrown) :
  PublicKey_new transfer_input = inl e ->
  JS.truthy transfer_input = true /\
  String.eqb transfer_input "check" = false /\
  targetWallet_of this transfer_input = inl e /\
  _call_reply this transfer_input w = (inr (call_catch e), w, []) /\
  _call this transfer_input w = (inr (render (call_catch e)), w, []) /\
  (classify (call_catch e) = InvalidInput <->
   exists message,
     e = ErrorObj message /\
     JS.includes message "Invalid public key" = true) /\
  (forall v result t1,
      _call this "check" v = (inr result, w, t1) ->
      JS.includes result "Agent wallet balance: 0.0000 SOL" = false ->
      transfer_request (balance_monitor_tool this) v
      = (inr tt, w,
         (t1 ++ [ConsoleLog result;
                 ConsoleLog (nl ++ "Attempting to transfer " ++
                             JS.numberToString transferAmount ++ " SOL...");
                 ConsoleLog (render (call_catch e))])%list)).
Proof.
  intros Hparse.
  assert (Ht : targetWallet_of this transfer_input = inl e).
  { unfold targetWallet_of. exact Hparse. }
  assert (E : _call_reply this transfer_input w = (inr (call_catch e), w, []))
    by (apply run_sound, RunParseThrows, Ht).
  pose proof (call_renders _ _ _ _ _ _ E) as Etext.
  repeat split; try reflexivity; try assumption;
    try apply call_catch_invalid_input.
  intros v result t1 Hfirst Hguard.
  unfold transfer_request, try_catch, bind, console_log, emit.
  cbn [call balance_monitor_tool].
  rewrite Hfirst, Hguard. cbn [negb]. cbv beta iota zeta.
  rewrite Etext. cbn [app]. reflexivity.
Qed.

End DriverClaims.

(** ** The claims on the scenarios *)

Section OnScenarios.

Import Reference Scenario BalanceMonitorTool Index.

Local Abbreviation sol x := (x / LAMPORTS_PER_SOL)%float.

(** C1 on the underfunded ledger: threshold 0.1, balance 0.05, funding
    balance 0.1, top-up 0.2. *)
Lemma C1_witness_underfunded :
  _call tool "check" underfunded
  = (inr ("Current balance: 0.0500 SOL" ++ nl ++ nl ++
          "I need some SOL to keep operating! 🙏" ++ nl ++
          "Please send at least 0.200005 SOL to my address:" ++ nl ++
          agent_wallet ++ nl ++ nl ++
          "This amount includes transaction fees. Once you've sent the SOL, let me know by saying "
          ++ dq ++ "check balance" ++ dq ++
          " and I'll verify the funds and proceed with the top-up."),
     underfunded, [GetBalance monitored; GetBalance agent_wallet]).
Proof.
  pose proof (C1_insufficient_funds_before_any_transfer
                tool "check" underfunded monitored 50000000 underfunded
                100000000 underfunded) as H.
  cbv zeta in H.
  destruct H as (_ & H & _);
    [ reflexivity .. | rewrite H; reflexivity ].
Defined.

(** C2 fails on the ledger whose confirmation times out: the transfer
    was accepted, the wait for its confirmation threw, and the reply is
    the failed-transfer reply of line 83, the one a rejected submission
    gets for the same error. *)
Lemma C2_counterexample_timeout_reported_as_failed_transfer :
  let run := _call_reply tool "check" confirmation_times_out in
  let accepted := transfer monitored 0.2%float confirmation_times_out in
  let reply :=
    TransferFailedWith (secondMessage (sol 50000000) (sol 500000000))
      "Transaction was not confirmed in 30.00 seconds" in
  fst accepted = inr "5igNature" /\
  fst (confirmTransaction "5igNature" "confirmed" (snd accepted))
  = inl not_confirmed /\
  fst (fst run) = inr reply /\
  snd run = [GetBalance monitored; GetBalance agent_wallet;
             Transfer monitored 0.2%float;
             ConfirmTransaction "5igNature" "confirmed"] /\
  classify reply = TransferFailed /\
  fst (fst (_call_reply tool "check" submission_rejected)) = inr reply /\
  fst (fst (_call tool "check" confirmation_times_out))
  = inr ("Current balance: 0.0500 SOL" ++ nl ++
         "My wallet balance: 0.5000 SOL" ++ nl ++
         "Transfer failed: Transaction was not confirmed in 30.00 seconds. Please try again in a moment.").
Proof. repeat split. Qed.

(** The amended C2 on the same ledger. *)
Lemma C2_witness_timeout :
  _call_reply tool "check" confirmation_times_out
  = (inr (transfer_catch tool (secondMessage (sol 50000000) (sol 500000000))
            not_confirmed),
     snd (transfer monitored 0.2%float confirmation_times_out),
     [GetBalance monitored; GetBalance agent_wallet;
      Transfer monitored 0.2%float;
      ConfirmTransaction "5igNature" "confirmed"]).
Proof.
  pose proof (C2_confirmation_failure_takes_the_transfer_catch
                tool "check" confirmation_times_out monitored 50000000
                confirmation_times_out 500000000 confirmation_times_out
                "5igNature"
                (snd (transfer monitored 0.2%float confirmation_times_out))
                not_confirmed
                (snd (transfer monitored 0.2%float confirmation_times_out)))
    as H.
  cbv zeta in H.
  destruct H as (H & _);
    [ reflexivity .. | exact H ].
Defined.

(** C3 on the healthy ledger, for both revisions. *)
Lemma C3_witness_healthy :
  _call tool "check" healthy
  = (inr "Current balance: 0.1500 SOL", healthy, [GetBalance monitored]) /\
  Part000._call tool_part_000 "check" healthy
  = (inr ("Wallet " ++ monitored ++
          " balance is 0.1500 SOL. No top-up needed."),
     healthy, [GetBalance monitored]).
Proof.
  pose proof (C3_healthy_no_transfer
                tool tool_part_000 "check" healthy monitored 150000000 healthy)
    as H.
  cbv zeta in H.
  destruct H as ((_ & H & _) & (_ & H0 & _) & _);
    [ reflexivity .. | rewrite H, H0; split; reflexivity ].
Defined.

(** C4 fails on the scenario of the specification: the text names the
    required amount, 0.200005; the shortfall, 0.100005, is not in it. *)
Lemma C4_counterexample_required_amount_not_shortfall :
  let text :=
    "Current balance: 0.0500 SOL" ++ nl ++ nl ++
    "I need some SOL to keep operating! 🙏" ++ nl ++
    "Please send at least 0.200005 SOL to my address:" ++ nl ++
    agent_wallet ++ nl ++ nl ++
    "This amount includes transaction fees. Once you've sent the SOL, let me know by saying "
    ++ dq ++ "check balance" ++ dq ++
    " and I'll verify the funds and proceed with the top-up." in
  fst (fst (_call tool "check" underfunded)) = inr text /\
  JS.toFixed (requiredAmount tool - sol 100000000)%float 6 = "0.100005" /\
  JS.includes text "0.100005" = false /\
  JS.includes text "0.1" = false /\
  JS.includes text "0.200005" = true.
Proof. repeat split. Qed.

(** The amended C4 on the same scenario. *)
Lemma C4_witness_underfunded :
  JS.includes
    (render (NeedFunds (firstMessage (sol 50000000)) (requiredAmount tool)
                       agent_wallet))
    (JS.toFixed (requiredAmount tool) 6) = true.
Proof.
  pose proof (C4_need_funds_names_address_and_required_amount
                tool "check" underfunded (firstMessage (sol 50000000))
                (requiredAmount tool) agent_wallet underfunded
                [GetBalance monitored; GetBalance agent_wallet]) as H.
  destruct H as (_ & _ & _ & H & _);
    [ reflexivity .. | exact H ].
Defined.

(** C5 fails on the funded ledger: the reply carries the funding balance
    of before the transfer, 0.5 SOL; what remains in the funding account
    after it is 0.299995 SOL, which the text does not show. *)
Lemma C5_counterexample_funding_balance_is_from_before :
  let run := _call_reply tool "check" funded in
  let text :=
    "Current balance: 0.0500 SOL" ++ nl ++
    "My wallet balance: 0.5000 SOL" ++ nl ++
    "Transfer successful! ✅" ++ nl ++
    "New balance: 0.2500 SOL" in
  fst (fst run)
  = inr (TransferSuccessful
           {| current := sol 50000000; mine := Some (sol 500000000) |}
           (sol 250000000)) /\
  fst (fst (_call tool "check" funded)) = inr text /\
  fst (getBalance agent_wallet (snd (fst run))) = inr 299995000%float /\
  JS.toFixed (sol 299995000) 4 = "0.3000" /\
  JS.toFixed (sol 299995000) 6 = "0.299995" /\
  JS.includes text "0.3000" = false /\
  JS.includes text "0.2999" = false.
Proof. repeat split. Qed.

(** The amended C5 on the same ledger. *)
Lemma C5_witness_funded :
  _call_reply tool "check" funded
  = (inr (TransferSuccessful
            {| current := sol 50000000; mine := Some (sol 500000000) |}
            (sol 250000000)),
     snd (transfer monitored 0.2%float funded),
     [GetBalance monitored; GetBalance agent_wallet;
      Transfer monitored 0.2%float;
      ConfirmTransaction "5igNature" "confirmed";
      GetBalance monitored]).
Proof.
  pose proof (C5_new_balance_is_queried_after_confirmation
                tool "check" funded monitored 50000000 funded
                500000000 funded "5igNature"
                (snd (transfer monitored 0.2%float funded))
                (snd (transfer monitored 0.2%float funded))
                250000000
                (snd (transfer monitored 0.2%float funded))) as H.
  cbv zeta in H.
  destruct H as (H & _);
    [ reflexivity .. | exact H ].
Defined.

(** C6 at the input [wallet-1], with the constructor of the library.
    The empty string and ["check"] resolve to the default wallet.  The
    input has a character outside the base-58 alphabet: the constructor
    throws the decoder's error, whose message does not contain the text
    line 91 looks for, and the call returns the reply of line 94 with the
    raw message, not the invalid-address reply.  No call is made on the
    ledger.  The input [abc], which the constructor rejects with its own
    message, gets the invalid-address reply of line 92. *)
Theorem C6_wallet_1_is_answered_with_the_decoder_message :
  targetWallet_of tool "" = inr monitored /\
  targetWallet_of tool "check" = inr monitored /\
  targetWallet_of tool "wallet-1" = inl (ErrorObj "Non-base58 character") /\
  JS.includes "Non-base58 character" "Invalid public key" = false /\
  _call_reply tool "wallet-1" healthy
  = (inr (ErrorCheckingBalance "Non-base58 character"), healthy, []) /\
  classify (ErrorCheckingBalance "Non-base58 character") = TransientError /\
  _call tool "wallet-1" healthy
  = (inr "Error checking balance: Non-base58 character", healthy, []) /\
  targetWallet_of tool "abc" = inl (ErrorObj "Invalid public key input") /\
  _call_reply tool "abc" healthy = (inr InvalidWalletAddress, healthy, []) /\
  classify InvalidWalletAddress = InvalidInput /\
  _call tool "abc" healthy
  = (inr "Error: Invalid wallet address provided. Please provide a valid Solana wallet address.",
     healthy, []).
Proof. repeat split. Qed.

(** C7 fails on the ledger whose confirmation times out.  The transfer
    was accepted and the wait for its confirmation threw: the call has no
    status text for that outcome.  What it returns is the text of a
    failed transfer, word for word the one it returns when the submission
    itself is rejected with the same error, and no path of [_call] on any
    ledger ends in a reply that reports an unknown confirmation. *)
Lemma C7_counterexample_no_text_for_an_unknown_confirmation :
  let accepted := transfer monitored 0.2%float confirmation_times_out in
  let text :=
    "Current balance: 0.0500 SOL" ++ nl ++
    "My wallet balance: 0.5000 SOL" ++ nl ++
    "Transfer failed: Transaction was not confirmed in 30.00 seconds. Please try again in a moment."
  in
  fst accepted = inr "5igNature" /\
  fst (confirmTransaction "5igNature" "confirmed" (snd accepted))
  = inl not_confirmed /\
  _call tool "check" confirmation_times_out
  = (inr text, snd accepted,
     [GetBalance monitored; GetBalance agent_wallet;
      Transfer monitored 0.2%float;
      ConfirmTransaction "5igNature" "confirmed"]) /\
  fst (fst (_call tool "check" submission_rejected)) = inr text /\
  (exists reply,
      fst (fst (_call_reply tool "check" confirmation_times_out)) = inr reply /\
      classify reply = TransferFailed) /\
  (forall this input (w : Sim) reply w' t,
      Run this input w reply w' t -> classify reply <> ConfirmationUnknown).
Proof.
  cbv zeta. repeat split.
  - eexists. split; reflexivity.
  - intros this input w reply w' t R.
    exact (run_never_unknown this input w reply w' t R).
Qed.

(** The amended C7 on a chat turn that asks for a transfer, on the funded
    ledger: the text of the first call is logged, and the turn goes on. *)
Lemma C7_witness_chat_turn :
  exists w' rest,
    chat_turn [balance_monitor_tool tool] "transfer 1 SOL" funded
    = (inr Continue, w',
       ([GetBalance monitored; GetBalance agent_wallet;
         Transfer monitored 0.2%float;
         ConfirmTransaction "5igNature" "confirmed";
         GetBalance monitored] ++
        ConsoleLog ("Current balance: 0.0500 SOL" ++ nl ++
                    "My wallet balance: 0.5000 SOL" ++ nl ++
                    "Transfer successful! ✅" ++ nl ++
                    "New balance: 0.2500 SOL") :: rest)%list).
Proof.
  pose proof (C7_every_outcome_is_a_returned_text (W := Sim)
                tool [balance_monitor_tool tool] "transfer 1 SOL") as H.
  destruct H as (_ & H & _); [ reflexivity .. | ].
  destruct (H funded) as (reply & w1 & t1 & w' & rest & R & E).
  apply run_sound in R.
  assert (K : _call_reply tool "check" funded
              = (inr (TransferSuccessful
                        (secondMessage (sol 50000000) (sol 500000000))
                        (sol 250000000)),
                 snd (transfer monitored 0.2%float funded),
                 [GetBalance monitored; GetBalance agent_wallet;
                  Transfer monitored 0.2%float;
                  ConfirmTransaction "5igNature" "confirmed";
                  GetBalance monitored])) by reflexivity.
  rewrite K in R. injection R as <- _ <-.
  exists w', rest. exact E.
Defined.



(** C10 at the text of a transfer request, with the constructor of the
    library.  The text has a space and a dot in it: the decoder throws
    its own error, and the call returns the reply of line 94 with the raw
    message, not the invalid-address reply.  In a whole chat turn on the
    funded ledger the driver logs that it attempts a transfer of 0.001
    SOL and then that reply; the one transfer of the turn is the top-up of
    0.2 SOL that the first call, [_call("check")], makes. *)
Theorem C10_transfer_text_is_answered_with_the_decoder_message :
  let turn :=
    chat_turn [balance_monitor_tool tool] "Transfer 1 SOL please" funded in
  transfer_input = "transfer 0.001" /\
  targetWallet_of tool transfer_input
  = inl (ErrorObj "Non-base58 character") /\
  _call_reply tool transfer_input healthy
  = (inr (ErrorCheckingBalance "Non-base58 character"), healthy, []) /\
  classify (ErrorCheckingBalance "Non-base58 character") = TransientError /\
  _call tool transfer_input healthy
  = (inr "Error checking balance: Non-base58 character", healthy, []) /\
  fst (fst turn) = inr Continue /\
  In (ConsoleLog (nl ++ "Attempting to transfer 0.001 SOL...")) (snd turn) /\
  last (snd turn) (ConsoleLog "")
  = ConsoleLog "Error checking balance: Non-base58 character" /\
  transfers (snd turn) = [Transfer monitored 0.2%float].
Proof.
  cbv zeta. repeat split.
  do 6 right. left. reflexivity.
Qed.

End OnScenarios.

(** * Further properties *)

(** ** More about [_call] *)

Section MoreToolFacts.

Context {host : Host} {W : Type} {env : Environment W}.

Import BalanceMonitorTool.

Local Abbreviation sol x := (x / LAMPORTS_PER_SOL)%float.

(** The five calls of a complete top-up, in order. *)
Local Abbreviation protocol this targetWallet signature :=
  [GetBalance targetWallet; GetBalance (wallet_publicKey this);
   Transfer targetWallet (topUpAmountSol this);
   ConfirmTransaction signature "confirmed";
   GetBalance targetWallet].

Ltac same_target :=
  match goal with
  | H1 : targetWallet_of ?this ?input = inr ?a,
    H2 : targetWallet_of ?this ?input = inr ?b |- _ =>
    rewrite H1 in H2; injection H2 as <-
  | H1 : targetWallet_of ?this ?input = inl _,
    H2 : targetWallet_of ?this ?input = inr _ |- _ =>
    rewrite H1 in H2; discriminate H2
  end.

Ltac pick_transfer :=
  repeat match goal with
         | H : In _ _ |- _ => simpl in H
         | H : _ \/ _ |- _ => destruct H
         | H : False |- _ => destruct H
         | H : GetBalance _ = Transfer _ _ |- _ => discriminate H
         | H : ConfirmTransaction _ _ = Transfer _ _ |- _ => discriminate H
         | H : Transfer _ _ = Transfer _ _ |- _ => injection H as <- <-
         end.

(** X1.  A call of the tool submits at most one transfer, to the wallet
    its input resolves to and for [topUpAmountSol]; it makes at most five
    calls, all of them on the ledger, and they are a beginning of the
    sequence query, query of the source, transfer, confirmation, query. *)
Theorem X1_call_submits_at_most_one_transfer
  (this : BalanceMonitorTool.t) (input : string) (w : W) :
  let t := snd (_call_reply this input w) in
  (List.length (transfers t) <= 1)%nat /\
  ledger_calls t = t /\
  (List.length t <= 5)%nat /\
  (forall to amount,
      In (Transfer to amount) t ->
      targetWallet_of this input = inr to /\ amount = topUpAmountSol this) /\
  (forall targetWallet,
      targetWallet_of this input = inr targetWallet ->
      exists signature rest,
        protocol this targetWallet signature = (t ++ rest)%list).
Proof.
  destruct (run_total this input w) as (r & w' & t & R).
  rewrite (run_sound _ _ _ _ _ _ R). cbv zeta. simpl snd.
  destruct R; cbn [transfers ledger_calls filter is_transfer is_ledger_call
                   List.length];
    (split; [lia | split; [reflexivity | split; [lia | split]]]);
    try (intros to amount Hin; pick_transfer;
         try (split; [assumption | reflexivity]); fail);
    intros tw Htw; try same_target; cbn [app].
  - exists "", [GetBalance (wallet_publicKey this);
                Transfer targetWallet (topUpAmountSol this);
                ConfirmTransaction "" "confirmed"; GetBalance targetWallet].
    reflexivity.
  - exists "", [GetBalance (wallet_publicKey this);
                Transfer targetWallet (topUpAmountSol this);
                ConfirmTransaction "" "confirmed"; GetBalance targetWallet].
    reflexivity.
  - exists "", [Transfer targetWallet (topUpAmountSol this);
                ConfirmTransaction "" "confirmed"; GetBalance targetWallet].
    reflexivity.
  - exists "", [Transfer targetWallet (topUpAmountSol this);
                ConfirmTransaction "" "confirmed"; GetBalance targetWallet].
    reflexivity.
  - exists "", [ConfirmTransaction "" "confirmed"; GetBalance targetWallet].
    reflexivity.
  - exists signature, [GetBalance targetWallet]. reflexivity.
  - exists signature, []. reflexivity.
  - exists signature, []. reflexivity.
Qed.

(** X2.  A transfer is submitted only when both balance queries were
    answered, the target's balance was below [minBalanceSol] and the
    source's balance was not below [topUpAmountSol + 0.000005]. *)
Theorem X2_transfer_only_when_low_and_solvent
  (this : BalanceMonitorTool.t) (input : string) (w : W)
  (to : PublicKey) (amount : float) :
  In (Transfer to amount) (snd (_call_reply this input w)) ->
  exists balance w1 sourceBalance w2,
    targetWallet_of this input = inr to /\
    getBalance to w = (inr balance, w1) /\
    (sol balance <? minBalanceSol this)%float = true /\
    getBalance (wallet_publicKey this) w1 = (inr sourceBalance, w2) /\
    (sol sourceBalance <? topUpAmountSol this + 0.000005)%float = false.
Proof.
  destruct (run_total this input w) as (r & w' & t & R).
  rewrite (run_sound _ _ _ _ _ _ R). simpl snd. intros Hin.
  destruct R; pick_transfer;
    exists balance, w1, sourceBalance, w2; repeat split; assumption.
Qed.

(** X3.  When the balance query of the source wallet throws, the call
    answers through the [catch] of the transfer (a failed transfer, or
    insufficient funds when the message matches), although no transfer was
    submitted. *)
Theorem X3_source_query_failure_is_reported_as_transfer_failure
  (this : BalanceMonitorTool.t) (input : string) (w : W)
  (targetWallet : PublicKey) (balance : float) (w1 : W)
  (e : thrown) (w2 : W) :
  targetWallet_of this input = inr targetWallet ->
  getBalance targetWallet w = (inr balance, w1) ->
  (sol balance <? minBalanceSol this)%float = true ->
  getBalance (wallet_publicKey this) w1 = (inl e, w2) ->
  let reply := transfer_catch this (firstMessage (sol balance)) e in
  let calls := [GetBalance targetWallet; GetBalance (wallet_publicKey this)] in
  _call_reply this input w = (inr reply, w2, calls) /\
  (classify reply = InsufficientFunds \/ classify reply = TransferFailed) /\
  transfers calls = [] /\
  (forall message,
      e = ErrorObj message ->
      JS.includes (toLowerCase message) "insufficient lamports" = false ->
      JS.includes (toLowerCase message) "0x1" = false ->
      JS.includes (toLowerCase message) "attempt to debit" = false ->
      render reply
      = "Current balance: " ++ JS.toFixed (sol balance) 4 ++ " SOL" ++ nl ++
        "Transfer failed: " ++ message ++ ". Please try again in a moment.").
Proof.
  intros Ht Hb Hlow Hs reply calls.
  split; [|split; [|split]].
  - apply run_sound. eapply RunSourceThrows; eauto.
  - apply transfer_catch_kind.
  - reflexivity.
  - intros message -> H1 H2 H3. unfold reply, transfer_catch.
    rewrite H1, H2, H3. cbn [orb render].
    unfold render_balanceMessage, firstMessage. cbn [current mine].
    rewrite !append_assoc. reflexivity.
Qed.

(** X4.  When the transfer was accepted and confirmed and the balance
    query that follows throws, the call still answers through the [catch]
    of the transfer: it reports a failure after the five calls of a
    complete top-up. *)
Theorem X4_requery_failure_is_reported_after_a_confirmed_transfer
  (this : BalanceMonitorTool.t) (input : string) (w : W)
  (targetWallet : PublicKey) (balance : float) (w1 : W)
  (sourceBalance : float) (w2 : W) (signature : string) (w3 w4 : W)
  (e : thrown) (w5 : W) :
  targetWallet_of this input = inr targetWallet ->
  getBalance targetWallet w = (inr balance, w1) ->
  (sol balance <? minBalanceSol this)%float = true ->
  getBalance (wallet_publicKey this) w1 = (inr sourceBalance, w2) ->
  (sol sourceBalance <? requiredAmount this)%float = false ->
  transfer targetWallet (topUpAmountSol this) w2 = (inr signature, w3) ->
  confirmTransaction signature "confirmed" w3 = (inr tt, w4) ->
  getBalance targetWallet w4 = (inl e, w5) ->
  let reply :=
    transfer_catch this (secondMessage (sol balance) (sol sourceBalance)) e in
  _call_reply this input w
  = (inr reply, w5, protocol this targetWallet signature) /\
  (classify reply = InsufficientFunds \/ classify reply = TransferFailed) /\
  transfers (protocol this targetWallet signature)
  = [Transfer targetWallet (topUpAmountSol this)].
Proof.
  intros Ht Hb Hlow Hs Hok Hx Hc Hn reply.
  split; [|split].
  - apply run_sound.
    exact (RunRequeryThrows this input w targetWallet balance w1 sourceBalance
             w2 signature w3 w4 e w5 Ht Hb Hlow Hs Hok Hx Hc Hn).
  - apply transfer_catch_kind.
  - reflexivity.
Qed.

(** X5.  The outer [catch] does not know where the throw came from: when
    the balance query of the default wallet throws an [Error] whose message
    contains [Invalid public key], the call on ["check"] or on the empty
    string answers that the wallet address provided is invalid. *)
Theorem X5_query_failure_can_be_reported_as_invalid_address
  (this : BalanceMonitorTool.t) (w : W) (message : string) (w1 : W) :
  getBalance (defaultWallet this) w = (inl (ErrorObj message), w1) ->
  JS.includes message "Invalid public key" = true ->
  let answer :=
    (inr "Error: Invalid wallet address provided. Please provide a valid Solana wallet address.",
     w1, [GetBalance (defaultWallet this)]) in
  _call this "check" w = answer /\ _call this "" w = answer.
Proof.
  intros Hb Hm answer.
  assert (E : forall input,
             targetWallet_of this input = inr (defaultWallet this) ->
             _call this input w = answer).
  { intros input Ht.
    assert (R : _call_reply this input w
                = (inr (call_catch (ErrorObj message)), w1,
                   [GetBalance (defaultWallet this)]))
      by (apply run_sound; eapply RunQueryThrows; eauto).
    rewrite (call_renders _ _ _ _ _ _ R). unfold call_catch. rewrite Hm.
    reflexivity. }
  split; apply E; reflexivity.
Qed.

(** X6.  The inner [catch] looks for the piece [0x1] anywhere in the
    lower-cased message, so every error code that begins with it (0x10,
    0x1771, ...) is answered as a shortage of funds for the transfer and
    the fees, whatever else the message says. *)
Theorem X6_codes_beginning_with_0x1_are_reported_as_shortage
  (this : BalanceMonitorTool.t) (b : BalanceMessage)
  (message rest : string) :
  JS.includes (toLowerCase message) ("0x1" ++ rest) = true ->
  transfer_catch this b (ErrorObj message)
  = NotEnoughForFees b (topUpAmountSol this + 0.000005)%float /\
  classify (transfer_catch this b (ErrorObj message)) = InsufficientFunds.
Proof.
  intros H. apply includes_weaken in H.
  unfold transfer_catch. rewrite H, orb_true_r. split; reflexivity.
Qed.

(** X7.  Every call returns a text, and the text begins with
    [Current balance: ] exactly when the input resolved to a wallet and the
    first balance query was answered; it then begins with the balance that
    query returned, in SOL with four decimals.  When the constructor or
    the first query threw, the text is the invalid-address text for an
    [Error] whose message contains [Invalid public key], and otherwise
    [Error checking balance: ] followed by the thrown text. *)
Theorem X7_text_begins_with_the_balance_or_with_an_error
  (this : BalanceMonitorTool.t) (input : string) (w : W) :
  exists text w' t,
    _call this input w = (inr text, w', t) /\
    (String.prefix "Current balance: " text = true <->
     exists targetWallet balance w1,
       targetWallet_of this input = inr targetWallet /\
       getBalance targetWallet w = (inr balance, w1)) /\
    (forall targetWallet balance w1,
        targetWallet_of this input = inr targetWallet ->
        getBalance targetWallet w = (inr balance, w1) ->
        String.prefix
          ("Current balance: " ++ JS.toFixed (sol balance) 4 ++ " SOL") text
        = true) /\
    (forall e,
        targetWallet_of this input = inl e \/
        (exists targetWallet w1,
            targetWallet_of this input = inr targetWallet /\
            getBalance targetWallet w = (inl e, w1)) ->
        text
        = match e with
          | ErrorObj message =>
            if JS.includes message "Invalid public key"
            then "Error: Invalid wallet address provided. Please provide a valid Solana wallet address."
            else "Error checking balance: " ++ message
          | NonError asString => "Error checking balance: " ++ asString
          end).
Proof.
  destruct (run_total this input w) as (r & w' & t & R).
  exists (render r), w', t. split.
  { apply call_renders, run_sound, R. }
  assert (Hb : forall b rest,
             String.prefix ("Current balance: " ++ JS.toFixed (current b) 4
                            ++ " SOL")
                           (render_balanceMessage b ++ rest) = true).
  { intros b rest. unfold render_balanceMessage.
    rewrite !append_assoc.
    apply (prefix_cong "Current balance: "), prefix_cong, prefix_app. }
  assert (Hc : forall b rest,
             String.prefix "Current balance: "
                           (render_balanceMessage b ++ rest) = true).
  { intros b rest.
    apply (prefix_weaken "Current balance: "
             (JS.toFixed (current b) 4 ++ " SOL")), Hb. }
  assert (He : forall e,
             String.prefix "Current balance: " (render (call_catch e))
             = false).
  { intros [message|s]; simpl;
      [destruct (JS.includes message "Invalid public key")|]; reflexivity. }
  assert (Hk : forall b e,
             exists rest,
               render (transfer_catch this b e)
               = render_balanceMessage b ++ rest).
  { intros b [message|s]; simpl; [|eexists; reflexivity].
    destruct (_ || _); [eexists; reflexivity|].
    destruct (JS.includes _ _); eexists; reflexivity. }
  assert (Hcases :
            (exists e,
                (targetWallet_of this input = inl e \/
                 exists targetWallet w1,
                   targetWallet_of this input = inr targetWallet /\
                   getBalance targetWallet w = (inl e, w1)) /\
                r = call_catch e) \/
            (exists targetWallet balance w1 b rest,
                targetWallet_of this input = inr targetWallet /\
                getBalance targetWallet w = (inr balance, w1) /\
                current b = sol balance /\
                render r = render_balanceMessage b ++ rest)).
  { destruct R.
    - left. exists e. split; [left; assumption | reflexivity].
    - left. exists e. split; [right; eauto | reflexivity].
    - right. exists targetWallet, balance, w1, (firstMessage (sol balance)), "".
      repeat split; try assumption.
      cbn [render]. rewrite append_empty. reflexivity.
    - right. destruct (Hk (firstMessage (sol balance)) e) as (rest & Er).
      exists targetWallet, balance, w1, (firstMessage (sol balance)), rest.
      repeat split; assumption.
    - right. exists targetWallet, balance, w1, (firstMessage (sol balance)).
      eexists. repeat split; assumption.
    - right.
      destruct (Hk (secondMessage (sol balance) (sol sourceBalance)) e)
        as (rest & Er).
      exists targetWallet, balance, w1,
             (secondMessage (sol balance) (sol sourceBalance)), rest.
      repeat split; assumption.
    - right.
      destruct (Hk (secondMessage (sol balance) (sol sourceBalance)) e)
        as (rest & Er).
      exists targetWallet, balance, w1,
             (secondMessage (sol balance) (sol sourceBalance)), rest.
      repeat split; assumption.
    - right.
      destruct (Hk (secondMessage (sol balance) (sol sourceBalance)) e)
        as (rest & Er).
      exists targetWallet, balance, w1,
             (secondMessage (sol balance) (sol sourceBalance)), rest.
      repeat split; assumption.
    - right. exists targetWallet, balance, w1,
                    (secondMessage (sol balance) (sol sourceBalance)).
      eexists. repeat split; assumption. }
  destruct Hcases
    as [(e & Hsrc & ->)
       | (targetWallet & balance & w1 & b & rest & Ht & Hq & Hcur & Hr)].
  - assert (Hno : forall targetWallet balance w1,
               targetWallet_of this input = inr targetWallet ->
               getBalance targetWallet w = (inr balance, w1) -> False).
    { intros targetWallet balance w1 Ht Hq.
      destruct Hsrc as [Hl | (targetWallet' & w1' & Ht' & Hq')].
      - rewrite Hl in Ht. discriminate.
      - rewrite Ht' in Ht. injection Ht as ->.
        rewrite Hq' in Hq. discriminate. }
    split; [split|split].
    + intros Hp. rewrite He in Hp. discriminate.
    + intros (targetWallet & balance & w1 & Ht & Hq).
      destruct (Hno _ _ _ Ht Hq).
    + intros targetWallet balance w1 Ht Hq. destruct (Hno _ _ _ Ht Hq).
    + intros e' Hsrc'.
      assert (e' = e) as ->.
      { destruct Hsrc as [Hl | (targetWallet & w1 & Ht & Hq)],
                 Hsrc' as [Hl' | (targetWallet' & w1' & Ht' & Hq')].
        - rewrite Hl in Hl'. injection Hl' as <-. reflexivity.
        - rewrite Hl in Ht'. discriminate.
        - rewrite Hl' in Ht. discriminate.
        - rewrite Ht in Ht'. injection Ht' as <-.
          rewrite Hq in Hq'. injection Hq' as <- _. reflexivity. }
      destruct e as [message|asString]; simpl; [|reflexivity].
      destruct (JS.includes message "Invalid public key"); reflexivity.
  - split; [split|split].
    + intros _. exists targetWallet, balance, w1. split; assumption.
    + intros _. rewrite Hr. apply Hc.
    + intros targetWallet' balance' w1' Ht' Hq'.
      rewrite Ht in Ht'. injection Ht' as <-.
      rewrite Hq in Hq'. injection Hq' as <- _.
      rewrite Hr, <- Hcur. apply Hb.
    + intros e [Hl | (targetWallet' & w1' & Ht' & Hq')].
      * rewrite Hl in Ht. discriminate.
      * rewrite Ht in Ht'. injection Ht' as <-.
        rewrite Hq in Hq'. discriminate.
Qed.

End MoreToolFacts.

(** ** The earlier revision, [src/unnamed/part_000] *)

Section RevisionFacts.

Context {host : Host} {W : Type} {env : Environment W}.

Local Abbreviation sol x := (x / LAMPORTS_PER_SOL)%float.

(** X8.  The earlier revision never throws and makes at most two calls:
    the balance query of the target and, when the balance is low, one
    transfer.  It reports the top-up as done exactly when that submission
    returned: it queries no source balance, waits for no confirmation and
    reads no new balance. *)
Theorem X8_earlier_revision_reports_success_on_submission
  (this0 : Part000.t) (input : string) (w : W) :
  exists reply w' t,
    Part000._call_reply this0 input w = (inr reply, w', t) /\
    (t = [] \/
     exists targetWallet,
       t = [GetBalance targetWallet] \/
       t = [GetBalance targetWallet;
            Transfer targetWallet (Part000.topUpAmountSol this0)]) /\
    (Part000.classify reply = ToppedUp <->
     exists targetWallet balance w1 signature,
       Part000.targetWallet_of this0 input = inr targetWallet /\
       getBalance targetWallet w = (inr balance, w1) /\
       (sol balance <? Part000.minBalanceSol this0)%float = true /\
       transfer targetWallet (Part000.topUpAmountSol this0) w1
       = (inr signature, w') /\
       t = [GetBalance targetWallet;
            Transfer targetWallet (Part000.topUpAmountSol this0)]).
Proof.
  assert (Hcatch : forall e, Part000.classify (Part000.call_catch e)
                             <> ToppedUp).
  { intros [message|s]; simpl; [|discriminate].
    destruct (JS.includes message "Invalid public key"); discriminate. }
  unfold_run.
  destruct (Part000.targetWallet_of this0 input) as [e|targetWallet] eqn:Ht;
    cbv beta iota zeta.
  { eexists _, _, _. split; [reflexivity|]. split; [now left|]. split.
    - intros K. now elim (Hcatch e).
    - intros (tw & b & w1 & sg & Q & _). discriminate Q. }
  destruct (getBalance targetWallet w) as [[e|balance] w1] eqn:Hb;
    cbv beta iota zeta.
  { eexists _, _, _. split; [reflexivity|].
    split; [right; exists targetWallet; now left|]. split.
    - intros K. now elim (Hcatch e).
    - intros (tw & b & w1' & sg & Q & Hb' & _).
      injection Q as <-. rewrite Hb in Hb'. discriminate Hb'. }
  destruct (sol balance <? Part000.minBalanceSol this0)%float eqn:Hlow;
    cbv beta iota zeta.
  2: { eexists _, _, _. split; [reflexivity|].
       split; [right; exists targetWallet; now left|]. split.
       - discriminate.
       - intros (tw & b & w1' & sg & Q & Hb' & Hlow' & _).
         injection Q as <-. rewrite Hb in Hb'. injection Hb' as <- <-.
         rewrite Hlow in Hlow'. discriminate Hlow'. }
  destruct (transfer targetWallet (Part000.topUpAmountSol this0) w1)
    as [[e|signature] w2] eqn:Hx; cbv beta iota zeta.
  - eexists _, _, _. split; [reflexivity|].
    split; [right; exists targetWallet; now right|]. split.
    + discriminate.
    + intros (tw & b & w1' & sg & Q & Hb' & _ & Hx' & _).
      injection Q as <-. rewrite Hb in Hb'. injection Hb' as <- <-.
      rewrite Hx in Hx'. discriminate Hx'.
  - eexists _, _, _. split; [reflexivity|].
    split; [right; exists targetWallet; now right|]. split.
    + intros _. exists targetWallet, balance, w1, signature.
      repeat split; assumption.
    + reflexivity.
Qed.

(** X9.  The current revision is the more careful of the two: whenever it
    submits a transfer, the earlier revision, with the same policy and on
    the same world, makes the balance query and submits that transfer. *)
Theorem X9_current_revision_transfers_only_where_the_earlier_did
  (this : BalanceMonitorTool.t) (this0 : Part000.t) (input : string) (w : W)
  (to : PublicKey) (amount : float) :
  Part000.minBalanceSol this0 = BalanceMonitorTool.minBalanceSol this ->
  Part000.topUpAmountSol this0 = BalanceMonitorTool.topUpAmountSol this ->
  Part000.defaultWallet this0 = BalanceMonitorTool.defaultWallet this ->
  In (Transfer to amount) (snd (BalanceMonitorTool._call_reply this input w)) ->
  snd (Part000._call_reply this0 input w)
  = [GetBalance to; Transfer to amount].
Proof.
  intros Hmin Htop Hdef Hin.
  assert (Facts : exists balance w1,
             BalanceMonitorTool.targetWallet_of this input = inr to /\
             amount = BalanceMonitorTool.topUpAmountSol this /\
             getBalance to w = (inr balance, w1) /\
             (sol balance <? BalanceMonitorTool.minBalanceSol this)%float
             = true).
  { destruct (run_total this input w) as (r & w' & t & R).
    rewrite (run_sound _ _ _ _ _ _ R) in Hin. simpl snd in Hin.
    destruct R; simpl in Hin;
      repeat match goal with
             | H : _ \/ _ |- _ => destruct H
             | H : False |- _ => destruct H
             | H : GetBalance _ = Transfer _ _ |- _ => discriminate H
             | H : ConfirmTransaction _ _ = Transfer _ _ |- _ =>
               discriminate H
             | H : Transfer _ _ = Transfer _ _ |- _ => injection H as <- <-
             end;
      exists balance, w1; repeat split; assumption. }
  destruct Facts as (balance & w1 & Ht & -> & Hb & Hlow).
  assert (Ht0 : Part000.targetWallet_of this0 input = inr to).
  { unfold Part000.targetWallet_of. rewrite Hdef. exact Ht. }
  unfold_run. answer Ht0. answer Hb. rewrite Hmin, Htop. answer Hlow.
  destruct (transfer to (BalanceMonitorTool.topUpAmountSol this) w1)
    as [[e|signature] w2]; reflexivity.
Qed.

End RevisionFacts.

(** ** The events of a pass *)

Section PassFacts.

Context {host : Host} {W : Type} {env : Environment W}.

Import Index.

Lemma silent_ret (p : Event -> bool) {A} (a : A) : silent p (ret (W := W) a).
Proof. intros w. reflexivity. Qed.

Lemma silent_throw (p : Event -> bool) {A} (e : thrown) :
  silent p (throw (W := W) (A := A) e).
Proof. intros w. reflexivity. Qed.

Lemma silent_emit (p : Event -> bool) (ev : Event) :
  p ev = false -> silent p (emit (W := W) ev).
Proof. intros H w. simpl. rewrite H. reflexivity. Qed.

Lemma silent_perform (p : Event -> bool) {A} (ev : Event)
  (call : W -> (thrown + A) * W) :
  p ev = false -> silent p (perform ev call).
Proof.
  intros H w. unfold perform. destruct (call w) as [r w1]. simpl.
  rewrite H. reflexivity.
Qed.

Lemma silent_bind (p : Event -> bool) {A B} (m : M W A) (k : A -> M W B) :
  silent p m -> (forall a, silent p (k a)) -> silent p (bind m k).
Proof.
  intros Hm Hk w. unfold bind. specialize (Hm w).
  destruct (m w) as [[[e|a] w1] t1]; simpl in *; [exact Hm|].
  specialize (Hk a w1). destruct (k a w1) as [[r w2] t2]. simpl in *.
  rewrite filter_app, Hm, Hk. reflexivity.
Qed.

Lemma silent_try (p : Event -> bool) {A} (m : M W A) (h : thrown -> M W A) :
  silent p m -> (forall e, silent p (h e)) -> silent p (try_catch m h).
Proof.
  intros Hm Hh w. unfold try_catch. specialize (Hm w).
  destruct (m w) as [[[e|a] w1] t1]; simpl in *; [|exact Hm].
  specialize (Hh e w1). destruct (h e w1) as [[r w2] t2]. simpl in *.
  rewrite filter_app, Hm, Hh. reflexivity.
Qed.

Lemma silent_for_await (p : Event -> bool) (body : Chunk -> M W unit)
  chunks failure :
  (forall chunk, silent p (body chunk)) ->
  silent p (for_await body chunks failure).
Proof.
  intros Hbody. induction chunks as [|chunk rest IH]; simpl.
  - destruct failure; [apply silent_throw | apply silent_ret].
  - apply silent_bind; [apply Hbody | intros _; exact IH].
Qed.

(** The calls of the tool are calls on the ledger and nothing else. *)
Lemma tool_silent (p : Event -> bool) (this : BalanceMonitorTool.t) input :
  (forall ev, is_ledger_call ev = true -> p ev = false) ->
  silent p (BalanceMonitorTool._call this input).
Proof.
  intros Hp w. destruct (run_total this input w) as (r & w' & t & R).
  rewrite (call_renders _ _ _ _ _ _ (run_sound _ _ _ _ _ _ R)). simpl snd.
  destruct R; cbn [filter]; rewrite ?Hp by reflexivity; reflexivity.
Qed.

Lemma tool_ledger_only (this : BalanceMonitorTool.t) input (w : W) :
  ledger_calls (snd (BalanceMonitorTool._call this input w))
  = snd (BalanceMonitorTool._call this input w).
Proof.
  destruct (run_total this input w) as (r & w' & t & R).
  rewrite (call_renders _ _ _ _ _ _ (run_sound _ _ _ _ _ _ R)). simpl snd.
  destruct R; reflexivity.
Qed.

Lemma filter_bind_emit (p : Event -> bool) {B} ev (k : unit -> M W B) w :
  p ev = false ->
  filter p (snd (bind (emit ev) k w)) = filter p (snd (k tt w)).
Proof.
  intros H. unfold bind, emit. destruct (k tt w) as [[r w2] t2]. simpl.
  rewrite H. reflexivity.
Qed.

Lemma filter_bind_silent (p : Event -> bool) {A B} (m : M W A)
  (k : A -> M W B) w :
  (forall a, silent p (k a)) ->
  filter p (snd (bind m k w)) = filter p (snd (m w)).
Proof.
  intros Hk. unfold bind.
  destruct (m w) as [[[e|a] w1] t1]; simpl; [reflexivity|].
  specialize (Hk a w1). destruct (k a w1) as [[r w2] t2]. simpl in *.
  rewrite filter_app, Hk, app_nil_r. reflexivity.
Qed.

Lemma filter_bind_skip (p : Event -> bool) {A B} (m : M W A)
  (k : A -> M W B) w a w1 t1 :
  silent p m -> m w = (inr a, w1, t1) ->
  filter p (snd (bind m k w)) = filter p (snd (k a w1)).
Proof.
  intros Hm E. specialize (Hm w). unfold bind. rewrite E in *. simpl in Hm.
  destruct (k a w1) as [[r w2] t2]. simpl.
  rewrite filter_app, Hm. reflexivity.
Qed.

Lemma filter_bind_perform (p : Event -> bool) {A B} ev
  (call : W -> (thrown + A) * W) (k : A -> M W B) w :
  p ev = true -> (forall a, silent p (k a)) ->
  filter p (snd (bind (perform ev call) k w)) = [ev].
Proof.
  intros H Hk. unfold bind, perform.
  destruct (call w) as [[e|a] w1]; simpl; [rewrite H; reflexivity|].
  specialize (Hk a w1). destruct (k a w1) as [[r w2] t2]. simpl in *.
  rewrite H, Hk. reflexivity.
Qed.

Lemma filter_try_silent (p : Event -> bool) {A} (m : M W A)
  (h : thrown -> M W A) w :
  (forall e, silent p (h e)) ->
  filter p (snd (try_catch m h w)) = filter p (snd (m w)).
Proof.
  intros Hh. unfold try_catch.
  destruct (m w) as [[[e|a] w1] t1]; simpl; [|reflexivity].
  specialize (Hh e w1). destruct (h e w1) as [[r w2] t2]. simpl in *.
  rewrite filter_app, Hh, app_nil_r. reflexivity.
Qed.

Lemma traced_emit (p : Event -> bool) ev bad :
  p ev = true -> traced p (emit (W := W) ev) [ev] bad.
Proof. intros H w. simpl. rewrite H. reflexivity. Qed.

Lemma traced_bind (p : Event -> bool) {A B} (m : M W A) (k : A -> M W B) ok :
  silent p m -> (forall a, traced p (k a) ok []) ->
  traced p (bind m k) ok [].
Proof.
  intros Hm Hk w. unfold bind. specialize (Hm w).
  destruct (m w) as [[[e|a] w1] t1]; simpl in *; [exact Hm|].
  specialize (Hk a w1). destruct (k a w1) as [[r w2] t2]. simpl in *.
  rewrite filter_app, Hm, Hk. reflexivity.
Qed.

Ltac quiet :=
  repeat first
    [ apply silent_ret
    | apply silent_emit; reflexivity
    | apply silent_perform; reflexivity
    | apply silent_for_await; intros []
    | apply tool_silent; intros []; (reflexivity || discriminate)
    | apply silent_bind; [|intros ?] ].

(** The part of the [try] block around the tool is silent for what is not
    a call on the ledger, whichever of the two the search gives. *)
Lemma wallet_check_silent (p : Event -> bool) (this : BalanceMonitorTool.t)
  (found : option Tool) :
  (forall ev, is_ledger_call ev = true -> p ev = false) ->
  (forall line, p (ConsoleLog line) = false) ->
  found = Some (balance_monitor_tool this) \/ found = None ->
  silent p
    (match found with
     | Some balanceMonitor =>
       console_log (nl ++ "💰 Checking Wallet Health...") ;;;
       balance <- call balanceMonitor "check" ;;
       console_log "📊 Status Report:" ;;;
       console_log balance
     | None => ret tt
     end).
Proof.
  intros Hp Hlog [-> | ->]; [|apply silent_ret].
  unfold console_log.
  apply silent_bind; [apply silent_emit, Hlog|intros _].
  apply silent_bind; [apply tool_silent, Hp|intros balance].
  apply silent_bind; [apply silent_emit, Hlog|intros _].
  apply silent_emit, Hlog.
Qed.

(** The waits of the [try] block: the wait of the cadence when it
    completes, none when it throws. *)
Lemma cycle_try_waits (this : BalanceMonitorTool.t) tools interval :
  find_balance_monitor tools = Some (balance_monitor_tool this) \/
  find_balance_monitor tools = None ->
  traced is_wait (cycle_try tools interval)
         [SetTimeout (cadence_ms interval)] [].
Proof.
  intros Hfind. unfold cycle_try, console_log, sleep.
  do 3 (apply traced_bind; [apply silent_emit; reflexivity|intros _]).
  apply traced_bind.
  { apply (wallet_check_silent is_wait this); try exact Hfind.
    - intros []; (reflexivity || discriminate).
    - reflexivity. }
  intros _.
  do 2 (apply traced_bind; [apply silent_emit; reflexivity|intros _]).
  apply traced_bind; [apply silent_perform; reflexivity|intros stream].
  apply traced_bind.
  { apply silent_for_await. intros []; unfold print_chunk_auto, console_log;
      quiet. }
  intros _.
  do 2 (apply traced_bind; [apply silent_emit; reflexivity|intros _]).
  apply traced_emit. reflexivity.
Qed.

Lemma cycle_waits (this : BalanceMonitorTool.t) tools interval (w : W) :
  find_balance_monitor tools = Some (balance_monitor_tool this) \/
  find_balance_monitor tools = None ->
  waits (snd (cycle tools interval w))
  = match fst (fst (cycle_try tools interval w)) with
    | inr _ => [SetTimeout (cadence_ms interval)]
    | inl _ => [SetTimeout recovery_ms]
    end.
Proof.
  intros Hfind. pose proof (cycle_try_waits this tools interval Hfind w) as H.
  unfold waits, cycle, try_catch.
  destruct (cycle_try tools interval w) as [[[e|u] w1] t1]; simpl in *.
  - rewrite cycle_catch_run. simpl. rewrite filter_app, H.
    destruct e; reflexivity.
  - exact H.
Qed.

(** X10.  With the balance monitor of this repository among the tools (or
    with none), every pass of the loop waits exactly once: for the cadence
    when its [try] block completed, for 5000 ms when it threw.  After [n]
    passes the loop has waited [n] times; it never spins. *)
Theorem X10_every_pass_waits_exactly_once
  (this : BalanceMonitorTool.t) (tools : list Tool) (interval : float)
  (n : nat) (w : W) :
  find_balance_monitor tools = Some (balance_monitor_tool this) \/
  find_balance_monitor tools = None ->
  waits (snd (cycle tools interval w))
  = match fst (fst (cycle_try tools interval w)) with
    | inr _ => [SetTimeout (cadence_ms interval)]
    | inl _ => [SetTimeout recovery_ms]
    end /\
  List.length (waits (snd (passes n tools interval w))) = n.
Proof.
  intros Hfind. split; [apply (cycle_waits this), Hfind|].
  revert w. induction n as [|n IH]; intros w; [reflexivity|].
  destruct (cycle_returns tools interval w) as (w1 & t1 & E1).
  rewrite (passes_next _ _ _ _ _ _ E1).
  specialize (IH w1).
  pose proof (cycle_waits this tools interval w Hfind) as Hw.
  rewrite E1 in Hw. simpl snd in Hw.
  destruct (passes n tools interval w1) as [[r w2] t2]. simpl snd in *.
  unfold waits in *. rewrite filter_app, length_app, Hw, IH.
  destruct (fst (fst (cycle_try tools interval w))); reflexivity.
Qed.

(** X11.  What a pass does in its own code, with the balance monitor of
    this repository among the tools.  It makes the one [_call("check")]
    and reports its text; then it opens the agent's stream, once, with the
    fixed text of lines 179-183, in the world the check left.  The calls
    on the ledger that the pass itself makes are those of that check, all
    of them before the stream is opened: after it the pass only logs and
    waits.  (What the tools the agent runs while it streams do is inside
    the stream call; it is not among the events.) *)
Theorem X11_the_pass_checks_once_and_opens_one_stream
  (this : BalanceMonitorTool.t) (tools : list Tool) (interval : float)
  (w : W) :
  find_balance_monitor tools = Some (balance_monitor_tool this) ->
  exists text w1 t1 r w2 after,
    BalanceMonitorTool._call this "check" w = (inr text, w1, t1) /\
    agent_stream thought w1 = (r, w2) /\
    snd (cycle tools interval w)
    = ([ConsoleLog (nl ++ rule50);
        ConsoleLog "🔍 DIAGNOSTIC CYCLE STARTING";
        ConsoleLog rule50;
        ConsoleLog (nl ++ "💰 Checking Wallet Health...")] ++
       t1 ++
       [ConsoleLog "📊 Status Report:";
        ConsoleLog text;
        ConsoleLog (nl ++ "🌐 Performing Network Analysis...");
        ConsoleLog (nl ++ "🤔 AI Agent is analyzing situation...")] ++
       AgentStream thought :: after)%list /\
    ledger_calls t1 = t1 /\
    agent_calls t1 = [] /\
    ledger_calls after = [] /\
    agent_calls after = [].
Proof.
  intros Hfind.
  destruct (tool_returns this "check" w) as (text & w1 & t1 & E).
  destruct (agent_stream thought w1) as [r w2] eqn:Es.
  exists text, w1, t1, r, w2.
  assert (Hled : ledger_calls t1 = t1).
  { pose proof (tool_ledger_only this "check" w) as H.
    rewrite E in H. exact H. }
  assert (Hag : agent_calls t1 = []).
  { assert (Hs : silent (W := W) is_agent_stream
                   (BalanceMonitorTool._call this "check"))
      by (apply tool_silent; intros []; (reflexivity || discriminate)).
    specialize (Hs w). rewrite E in Hs. exact Hs. }
  assert (Hq : forall p,
             (forall line, p (ConsoleLog line) = false) ->
             forall (stream : list Chunk * option thrown) (v : W),
               filter p (snd (for_await print_chunk_auto
                                (fst stream) (snd stream) v)) = []).
  { intros p Hlog stream v. apply silent_for_await.
    intros []; unfold print_chunk_auto, console_log;
      repeat first [apply silent_ret | apply silent_emit, Hlog
                   | apply silent_bind; [|intros ?]]. }
  unfold cycle, try_catch, cycle_try. rewrite Hfind.
  unfold bind, console_log, sleep, emit, perform.
  cbn [call balance_monitor_tool]. rewrite E. cbv beta iota zeta.
  rewrite Es. cbv beta iota zeta.
  destruct r as [e|stream]; cbv beta iota zeta.
  - rewrite cycle_catch_run. cbn [snd].
    exists (recovery e). repeat split; try assumption.
    + repeat first [rewrite <- app_assoc | progress cbn [app]]. reflexivity.
    + destruct e; reflexivity.
    + destruct e; reflexivity.
  - pose proof (Hq is_ledger_call (fun _ => eq_refl) stream w2) as Hl.
    pose proof (Hq is_agent_stream (fun _ => eq_refl) stream w2) as Ha.
    destruct (for_await print_chunk_auto (fst stream) (snd stream) w2)
      as [[[e|u] w3] t3]; cbv beta iota zeta; cbn [snd] in *.
    + rewrite cycle_catch_run. cbn [snd].
      exists (t3 ++ recovery e)%list. repeat split; try assumption.
      * repeat first [rewrite <- app_assoc | progress cbn [app]].
        reflexivity.
      * unfold ledger_calls. rewrite filter_app, Hl.
        destruct e; reflexivity.
      * unfold agent_calls. rewrite filter_app, Ha.
        destruct e; reflexivity.
    + eexists. repeat split; try assumption.
      * repeat first [rewrite <- app_assoc | progress cbn [app]].
        reflexivity.
      * unfold ledger_calls. rewrite filter_app, Hl. reflexivity.
      * unfold agent_calls. rewrite filter_app, Ha. reflexivity.
Qed.

End PassFacts.

(** ** Chat sessions *)

Section ChatFacts.

Context {host : Host} {W : Type} {env : Environment W}.

Import Index Chat.

(** X12.  A line that mentions the balance is a balance request, also when
    it mentions a transfer: the turn makes the one [_call("check")], logs
    its text and goes on; the agent is not asked and the text of a transfer
    request is never passed to the tool. *)
Theorem X12_balance_wins_over_transfer
  (this : BalanceMonitorTool.t) (tools : list Tool) (userInput : string)
  (w : W) :
  find_balance_monitor tools = Some (balance_monitor_tool this) ->
  String.eqb (toLowerCase userInput) "exit" = false ->
  JS.includes (toLowerCase userInput) "balance" = true ->
  exists text w1 t,
    BalanceMonitorTool._call this "check" w = (inr text, w1, t) /\
    chat_turn tools userInput w
    = (inr Continue, w1, (t ++ [ConsoleLog text])%list) /\
    agent_calls (t ++ [ConsoleLog text]) = [].
Proof.
  intros Hfind Hexit Hbal.
  destruct (tool_returns this "check" w) as (text & w1 & t & E).
  exists text, w1, t. split; [exact E|].
  split.
  - unfold chat_turn. rewrite Hexit, Hbal, Hfind.
    unfold bind, console_log, emit. cbn [call balance_monitor_tool].
    rewrite E. reflexivity.
  - unfold agent_calls. rewrite filter_app.
    assert (Hs : silent (W := W) is_agent_stream
                   (BalanceMonitorTool._call this "check"))
      by (apply tool_silent; intros []; (reflexivity || discriminate)).
    specialize (Hs w).
    rewrite E in Hs. simpl snd in Hs. rewrite Hs. reflexivity.
Qed.

Lemma chat_loop_stops_at_exit (tools : list Tool) (before after : list string)
  (line : string) (w : W) :
  String.eqb (toLowerCase line) "exit" = true ->
  chat_loop tools (before ++ line :: after) w
  = chat_loop tools (before ++ [line]) w.
Proof.
  intros Hexit. revert w. induction before as [|first before IH]; intros w.
  - simpl. unfold bind, chat_turn. rewrite Hexit. reflexivity.
  - simpl. unfold bind.
    destruct (chat_turn tools first w) as [[[e|[|]] w1] t1];
      try reflexivity.
    rewrite IH. reflexivity.
Qed.

(** X13.  A chat session ends at the first line that is [exit] in any
    letter case: what is typed after it has no effect, and a session that
    begins with it returns with nothing but the opening line logged. *)
Theorem X13_nothing_is_read_after_exit
  (tools : list Tool) (before after : list string) (line : string) (w : W) :
  String.eqb (toLowerCase line) "exit" = true ->
  runChatMode tools (before ++ line :: after) w
  = runChatMode tools (before ++ [line]) w /\
  runChatMode tools (line :: after) w
  = (inr Returned, w,
     [ConsoleLog "Starting chat mode... Type 'exit' to end."]).
Proof.
  intros Hexit. split.
  - unfold runChatMode, bind, try_catch, console_log, emit.
    rewrite (chat_loop_stops_at_exit _ _ _ _ _ Hexit). reflexivity.
  - unfold runChatMode, bind, try_catch, console_log, emit. simpl.
    unfold bind, chat_turn. rewrite Hexit. reflexivity.
Qed.

(** X14.  In chat mode a prompt that is neither [exit] nor a balance or
    transfer request goes to the agent, and when opening the agent's stream
    throws, the session logs the message and leaves the process with code
    1; the lines typed after it are not read.  (The autonomous loop
    recovers from the same throw.) *)
Theorem X14_agent_failure_ends_the_chat_with_exit_code_1
  (tools : list Tool) (userInput : string) (rest : list string) (w : W)
  (e : thrown) (w1 : W) :
  String.eqb (toLowerCase userInput) "exit" = false ->
  JS.includes (toLowerCase userInput) "balance" = false ->
  JS.includes (toLowerCase userInput) "transfer" = false ->
  agent_stream userInput w = (inl e, w1) ->
  runChatMode tools (userInput :: rest) w
  = (inr (ProcessExit 1), w1,
     ([ConsoleLog "Starting chat mode... Type 'exit' to end.";
       AgentStream userInput] ++
      match e with
      | ErrorObj message => [ConsoleError "Error:" message]
      | NonError _ => []
      end)%list).
Proof.
  intros Hexit Hbal Htr Hagent.
  unfold runChatMode, try_catch, console_log, emit. simpl chat_loop.
  unfold chat_turn. rewrite Hexit, Hbal, Htr.
  unfold ask_agent, bind, perform. rewrite Hagent.
  destruct e; reflexivity.
Qed.

End ChatFacts.

(** ** Startup *)

Section StartupFacts.

Context {host : Host}.

Import Startup.

(** X15.  [validateEnvironment] lets the program start exactly when
    [OPENAI_API_KEY], [RPC_URL] and [SOLANA_PRIVATE_KEY] are all set to a
    non-empty text; otherwise it leaves the process with code 1 after the
    heading and one line for each missing variable.  It looks at no other
    variable: [OPEN_PUTER_WALLET_ADDRESS], which line 65 reads, is not
    checked. *)
Theorem X15_validateEnvironment_checks_three_variables
  (env : ProcessEnv) :
  (validateEnvironment env = Validated <->
   unset env "OPENAI_API_KEY" = false /\
   unset env "RPC_URL" = false /\
   unset env "SOLANA_PRIVATE_KEY" = false) /\
  (validateEnvironment env = Validated \/
   exists lines,
     validateEnvironment env
     = Startup.ProcessExit 1
         ("Error: Required environment variables are not set" :: lines) /\
     lines = map (fun varName =>
                    varName ++ "=your_" ++ toLowerCase varName ++ "_here")
                 (missingVars env) /\
     (0 < List.length lines <= 3)%nat) /\
  (forall env' : ProcessEnv,
      (forall varName, In varName requiredVars ->
                       env' varName = env varName) ->
      validateEnvironment env' = validateEnvironment env).
Proof.
  split; [|split].
  - unfold validateEnvironment, missingVars, requiredVars. cbn [filter].
    destruct (unset env "OPENAI_API_KEY"), (unset env "RPC_URL"),
      (unset env "SOLANA_PRIVATE_KEY"); simpl;
      split; try discriminate; try (intros (A & B & C); discriminate);
      auto.
  - unfold validateEnvironment, missingVars, requiredVars. cbn [filter].
    destruct (unset env "OPENAI_API_KEY"), (unset env "RPC_URL"),
      (unset env "SOLANA_PRIVATE_KEY"); simpl;
      try (left; reflexivity);
      right; eexists; (split; [reflexivity|]); (split; [reflexivity|]);
      simpl; lia.
  - intros env' Hsame.
    unfold validateEnvironment, missingVars, requiredVars, unset.
    cbn [filter].
    rewrite !Hsame by (simpl; auto). reflexivity.
Qed.

End StartupFacts.

Section InfoToolFacts.

Context {host : Host} {W : Type} {kit : Startup.AgentKit (W := W)}.

Import Startup.

(** X16.  Of the three informational tools, [check_token_price] and
    [network_info] turn every failure of the agent kit into a text, and
    [check_tps] does not: when [getTPS] throws, [check_tps] throws the same
    value while [network_info], which makes the same call, returns
    [Could not fetch network info: ] and the message. *)
Theorem X16_check_tps_alone_lets_a_failure_through
  (RPC_URL : option string) (w : W) (e : thrown) (w1 : W) :
  getTPS w = (inl e, w1) ->
  tpsChecker_func w = (inl e, w1, []) /\
  networkInfo_func RPC_URL w
  = (inr ("Could not fetch network info: " ++ errorText e), w1, []) /\
  (forall v, exists text v', tokenPriceChecker_func v = (inr text, v', [])) /\
  (forall v, exists text v', networkInfo_func RPC_URL v = (inr text, v', [])).
Proof.
  intros H. split; [|split; [|split]].
  - unfold tpsChecker_func, bind, ask. rewrite H. reflexivity.
  - unfold networkInfo_func, try_catch, bind, ask. rewrite H. reflexivity.
  - intros v. unfold tokenPriceChecker_func, try_catch, bind, ask.
    destruct (fetchTokenPrice solMint v) as [[e'|price] v']; simpl;
      eexists _, _; reflexivity.
  - intros v. unfold networkInfo_func, try_catch, bind, ask.
    destruct (getTPS v) as [[e'|tps] v']; simpl; eexists _, _; reflexivity.
Qed.

End InfoToolFacts.

(** ** The further properties on concrete runs *)

Section MoreOnScenarios.

Import Reference Scenario BalanceMonitorTool Index.

Local Abbreviation sol x := (x / LAMPORTS_PER_SOL)%float.

(** X2 on the funded ledger. *)
Lemma X2_witness_funded :
  exists balance w1 sourceBalance w2,
    targetWallet_of tool "check" = inr monitored /\
    getBalance monitored funded = (inr balance, w1) /\
    (sol balance <? minBalanceSol tool)%float = true /\
    getBalance (wallet_publicKey tool) w1 = (inr sourceBalance, w2) /\
    (sol sourceBalance <? topUpAmountSol tool + 0.000005)%float = false.
Proof.
  apply (X2_transfer_only_when_low_and_solvent tool "check" funded
           monitored 0.2%float).
  right; right; left; reflexivity.
Defined.

(** X3 on a ledger whose second balance query fails. *)
Lemma X3_witness_source_query_fails :
  _call (env := Script.scripted) tool "check" (Script.script [inr 50000000%float; inl (ErrorObj "fetch failed")])
  = (inr ("Current balance: 0.0500 SOL" ++ nl ++
          "Transfer failed: fetch failed. Please try again in a moment."),
     Script.script [], [GetBalance monitored; GetBalance agent_wallet]).
Proof.
  pose proof (X3_source_query_failure_is_reported_as_transfer_failure
                (env := Script.scripted)
                tool "check"
                (Script.script [inr 50000000%float; inl (ErrorObj "fetch failed")])
                monitored 50000000
                (Script.script [inl (ErrorObj "fetch failed")])
                (ErrorObj "fetch failed") (Script.script [])) as H.
  cbv zeta in H.
  destruct H as (H & _);
    [ reflexivity .. | rewrite (call_renders _ _ _ _ _ _ H); reflexivity ].
Defined.

(** X4 on a ledger whose third balance query fails. *)
Lemma X4_witness_requery_fails :
  _call (env := Script.scripted) tool "check"
    (Script.script [inr 50000000%float; inr 500000000%float;
             inl (ErrorObj "fetch failed")])
  = (inr ("Current balance: 0.0500 SOL" ++ nl ++
          "My wallet balance: 0.5000 SOL" ++ nl ++
          "Transfer failed: fetch failed. Please try again in a moment."),
     Script.script [],
     [GetBalance monitored; GetBalance agent_wallet;
      Transfer monitored 0.2%float;
      ConfirmTransaction "5igNature" "confirmed"; GetBalance monitored]).
Proof.
  pose proof (X4_requery_failure_is_reported_after_a_confirmed_transfer
                (env := Script.scripted)
                tool "check"
                (Script.script [inr 50000000%float; inr 500000000%float;
                         inl (ErrorObj "fetch failed")])
                monitored 50000000
                (Script.script [inr 500000000%float; inl (ErrorObj "fetch failed")])
                500000000
                (Script.script [inl (ErrorObj "fetch failed")])
                "5igNature"
                (Script.script [inl (ErrorObj "fetch failed")])
                (Script.script [inl (ErrorObj "fetch failed")])
                (ErrorObj "fetch failed") (Script.script [])) as H.
  cbv zeta in H.
  destruct H as (H & _);
    [ reflexivity .. | rewrite (call_renders _ _ _ _ _ _ H); reflexivity ].
Defined.

(** X5 on a ledger whose first balance query fails with that message. *)
Lemma X5_witness_query_fails :
  _call (env := Script.scripted) tool "check" (Script.script [inl (ErrorObj "Invalid public key input")])
  = (inr "Error: Invalid wallet address provided. Please provide a valid Solana wallet address.",
     Script.script [], [GetBalance monitored]).
Proof.
  pose proof (X5_query_failure_can_be_reported_as_invalid_address
                (env := Script.scripted)
                tool (Script.script [inl (ErrorObj "Invalid public key input")])
                "Invalid public key input" (Script.script [])) as H.
  cbv zeta in H.
  destruct H as (H & _); [ reflexivity .. | exact H ].
Defined.

(** X6 on the code 0x1771. *)
Lemma X6_witness_code_0x1771 :
  transfer_catch tool (firstMessage (sol 50000000))
    (ErrorObj "Transaction simulation failed: custom program error: 0x1771")
  = NotEnoughForFees (firstMessage (sol 50000000))
      (topUpAmountSol tool + 0.000005)%float.
Proof.
  pose proof (X6_codes_beginning_with_0x1_are_reported_as_shortage
                tool (firstMessage (sol 50000000))
                "Transaction simulation failed: custom program error: 0x1771"
                "771") as H.
  destruct H as (H & _); [ reflexivity | exact H ].
Defined.

(** X9 on the funded ledger. *)
Lemma X9_witness_funded :
  snd (Part000._call_reply tool_part_000 "check" funded)
  = [GetBalance monitored; Transfer monitored 0.2%float].
Proof.
  apply (X9_current_revision_transfers_only_where_the_earlier_did
           tool tool_part_000 "check" funded monitored 0.2%float);
    [ reflexivity | reflexivity | reflexivity
    | right; right; left; reflexivity ].
Defined.

(** X10 on three passes from the funded ledger. *)
Lemma X10_witness_three_passes :
  List.length
    (waits (snd (passes 3 [balance_monitor_tool tool] default_interval
                   funded)))
  = 3%nat.
Proof.
  pose proof (X10_every_pass_waits_exactly_once
                tool [balance_monitor_tool tool] default_interval 3 funded)
    as H.
  destruct H as (_ & H); [ left; reflexivity | exact H ].
Defined.

(** X11 on a pass from the funded ledger. *)
Lemma X11_witness_funded :
  exists after,
    snd (cycle [balance_monitor_tool tool] default_interval funded)
    = ([ConsoleLog (nl ++ rule50);
        ConsoleLog "🔍 DIAGNOSTIC CYCLE STARTING";
        ConsoleLog rule50;
        ConsoleLog (nl ++ "💰 Checking Wallet Health...")] ++
       [GetBalance monitored; GetBalance agent_wallet;
        Transfer monitored 0.2%float;
        ConfirmTransaction "5igNature" "confirmed";
        GetBalance monitored] ++
       [ConsoleLog "📊 Status Report:";
        ConsoleLog ("Current balance: 0.0500 SOL" ++ nl ++
                    "My wallet balance: 0.5000 SOL" ++ nl ++
                    "Transfer successful! ✅" ++ nl ++
                    "New balance: 0.2500 SOL");
        ConsoleLog (nl ++ "🌐 Performing Network Analysis...");
        ConsoleLog (nl ++ "🤔 AI Agent is analyzing situation...")] ++
       AgentStream thought :: after)%list /\
    ledger_calls after = [] /\
    agent_calls after = [].
Proof.
  pose proof (X11_the_pass_checks_once_and_opens_one_stream
                tool [balance_monitor_tool tool] default_interval funded)
    as H.
  destruct H
    as (text & w1 & t1 & r & w2 & after & E & _ & Ht & _ & _ & Hl & Ha);
    [ reflexivity | ].
  assert (K : _call tool "check" funded
              = (inr ("Current balance: 0.0500 SOL" ++ nl ++
                      "My wallet balance: 0.5000 SOL" ++ nl ++
                      "Transfer successful! ✅" ++ nl ++
                      "New balance: 0.2500 SOL"),
                 snd (transfer monitored 0.2%float funded),
                 [GetBalance monitored; GetBalance agent_wallet;
                  Transfer monitored 0.2%float;
                  ConfirmTransaction "5igNature" "confirmed";
                  GetBalance monitored])) by reflexivity.
  rewrite K in E. injection E as <- _ <-.
  exists after. split; [exact Ht | split; [exact Hl | exact Ha]].
Defined.

(** X12 on a line that mentions both. *)
Lemma X12_witness_both_words :
  exists text w1 t,
    _call tool "check" healthy = (inr text, w1, t) /\
    chat_turn [balance_monitor_tool tool] "Transfer my balance" healthy
    = (inr Continue, w1, (t ++ [ConsoleLog text])%list) /\
    agent_calls (t ++ [ConsoleLog text]) = [].
Proof.
  apply (X12_balance_wins_over_transfer
           tool [balance_monitor_tool tool] "Transfer my balance" healthy);
    reflexivity.
Defined.

(** X13 on a session with a line after [EXIT]. *)
Lemma X13_witness_session :
  Chat.runChatMode [balance_monitor_tool tool]
    (["check balance"] ++ "EXIT" :: ["send everything"]) healthy
  = Chat.runChatMode [balance_monitor_tool tool]
      (["check balance"] ++ ["EXIT"]) healthy.
Proof.
  pose proof (X13_nothing_is_read_after_exit
                [balance_monitor_tool tool] ["check balance"]
                ["send everything"] "EXIT" healthy) as H.
  destruct H as (H & _); [ reflexivity | exact H ].
Defined.

(** X14 on a greeting when the agent is down. *)
Lemma X14_witness_agent_down :
  Chat.runChatMode [balance_monitor_tool tool] ["hello"; "check balance"]
    agent_down
  = (inr (Chat.ProcessExit 1), agent_down,
     [ConsoleLog "Starting chat mode... Type 'exit' to end.";
      AgentStream "hello"; ConsoleError "Error:" "fetch failed"]).
Proof.
  apply (X14_agent_failure_ends_the_chat_with_exit_code_1
           [balance_monitor_tool tool] "hello" ["check balance"] agent_down
           (ErrorObj "fetch failed") agent_down);
    reflexivity.
Defined.

(** X16 on an agent kit whose calls fail. *)
Lemma X16_witness_kit_down :
  Startup.tpsChecker_func (kit := KitDown.kit_down) tt
  = (inl (ErrorObj "fetch failed"), tt, []) /\
  Startup.networkInfo_func (kit := KitDown.kit_down) None tt
  = (inr "Could not fetch network info: fetch failed", tt, []).
Proof.
  pose proof (X16_check_tps_alone_lets_a_failure_through
                (kit := KitDown.kit_down) None tt (ErrorObj "fetch failed") tt)
    as H.
  destruct H as (H1 & H2 & _); [ reflexivity | split; [exact H1 | exact H2] ].
Defined.

End MoreOnScenarios.
